(** * LibraryLink Utilities: containers and argument manager

    A shallow embedding of the Tensor wrapper ([src/src/Tensor.h]), of the
    container base class ([src/include/LLU/Containers/MArrayBase.h]) and of
    the argument manager ([src/src/MArgumentManager.h]), together with the
    properties of construction, wrapping, moving, passing and runtime type
    dispatch.

    Conventions.
    - [mint] is the 64-bit signed machine integer of WolframLibrary.h; it is
      a [Z] and every place where C++ narrows or wraps is written out.
    - A C++ function that may throw returns an [Outcome]; a function that
      talks to the Wolfram host threads the [World] explicitly.
    - An [MTensor] is a pointer: [0] is [nullptr], [N.pos p] is the address
      [p] in the host heap, a [gmap] from addresses to tensor objects. *)

From Stdlib Require Import ZArith List Bool Lia.
From stdpp Require Import base gmap list strings.

Local Open Scope Z_scope.

(** ** Machine integers *)

Definition mint := Z.

(** [std::numeric_limits<mint>::max()] and [::min()], MArgumentManager.h:310-313. *)
Definition MINT_MAX : mint := 2 ^ 63 - 1.
Definition MINT_MIN : mint := - 2 ^ 63.

(** Conversion of an integer value to [mint] (two's complement, modulo 2^64). *)
Definition to_mint (z : Z) : mint := (z + 2 ^ 63) mod 2 ^ 64 - 2 ^ 63.

(** The integral types a template parameter can be instantiated with. *)
Inductive IntegralT : Set :=
| int8_t | uint8_t | int16_t | uint16_t
| int32_t | uint32_t | int64_t | uint64_t.

Definition is_signed (T : IntegralT) : bool :=
  match T with
  | int8_t | int16_t | int32_t | int64_t => true
  | uint8_t | uint16_t | uint32_t | uint64_t => false
  end.

Definition width (T : IntegralT) : Z :=
  match T with
  | int8_t | uint8_t => 8
  | int16_t | uint16_t => 16
  | int32_t | uint32_t => 32
  | int64_t | uint64_t => 64
  end.

Definition T_min (T : IntegralT) : Z :=
  if is_signed T then - 2 ^ (width T - 1) else 0.

Definition T_max (T : IntegralT) : Z :=
  if is_signed T then 2 ^ (width T - 1) - 1 else 2 ^ width T - 1.

(** The values an object of type [T] can hold. *)
Definition in_range (T : IntegralT) (v : Z) : Prop := T_min T <= v <= T_max T.

(** ** Errors and outcomes *)

(** The error names thrown by the code under study. *)
Inductive LLErrorCode : Set :=
| FunctionError
| DimensionsError
| TensorInitError
| TensorNewError
| TensorTypeError
| TensorSizeError
| TensorIndexError
| MArgumentIndexError
| MArgumentRawArrayError
| MArgumentTensorError
| MArgumentImageError.

Global Instance LLErrorCode_eq_dec : EqDecision LLErrorCode.
Proof. solve_decision. Defined.

(** Result of a C++ call: it returns a value or throws a LibraryLinkError. *)
Inductive Outcome (A : Type) : Type :=
| Return (a : A)
| Throw (e : LLErrorCode).

Arguments Return {A} a.
Arguments Throw {A} e.

Definition bind {A B : Type} (m : Outcome A) (k : A -> Outcome B) : Outcome B :=
  match m with
  | Return a => k a
  | Throw e => Throw e
  end.

(** ** Argument slots *)

Definition MTensor := N.
Definition nullptr : MTensor := 0%N.

(** The union behind an [MArgument], as far as the code writes to it. *)
Inductive MArgument : Type :=
| MArg_Undef
| MArg_Integer (i : mint)
| MArg_MTensor (t : MTensor).

(** ** Runtime element-type tags *)

(** Tags of an MTensor (the [MType_*] constants of WolframLibrary.h). *)
Inductive MType : Set :=
| MType_Undef | MType_Boolean | MType_Integer | MType_Real | MType_Complex.

Global Instance MType_eq_dec : EqDecision MType.
Proof. solve_decision. Defined.

(** Tags of an MRawArray ([rawarray_t] of WolframRawArrayLibrary.h). *)
Inductive rawarray_t : Set :=
| MRawArray_Type_Undef
| MRawArray_Type_Bit8 | MRawArray_Type_Ubit8
| MRawArray_Type_Bit16 | MRawArray_Type_Ubit16
| MRawArray_Type_Bit32 | MRawArray_Type_Ubit32
| MRawArray_Type_Bit64 | MRawArray_Type_Ubit64
| MRawArray_Type_Real32 | MRawArray_Type_Real64
| MRawArray_Type_Float_Complex | MRawArray_Type_Double_Complex.

(** Tags of an MImage ([imagedata_t] of WolframImageLibrary.h). *)
Inductive imagedata_t : Set :=
| MImage_Type_Undef
| MImage_Type_Bit | MImage_Type_Bit8 | MImage_Type_Bit16
| MImage_Type_Real32 | MImage_Type_Real.

(** Native element types a wrapper can be instantiated with. *)
Inductive ElementT : Set :=
| Integral (i : IntegralT)
| float_t
| double_t
| complex_float_t
| complex_double_t.

(** ** The Wolfram host *)

Section Containers.

(** [T] is the template parameter of [Tensor<T>] and [type] the static
    member [Tensor<T>::type] (declared at Tensor.h:196). *)
Context {T : Type}.
Variable type : MType.

(** What the host keeps behind an [MTensor] handle. *)
Record st_MTensor : Type := {
  mt_type : MType;
  mt_rank : mint;
  mt_dims : list mint;
  mt_flattenedLength : mint;
  mt_data : list T
}.

(** The part of the host the wrappers interact with.  [freed] logs the
    arguments of the [MTensor_free] calls, newest first.  [new_status] is
    the status the next [MTensor_new] reports (0 is LIBRARY_NO_ERROR) and
    [new_cell] the content of the cells it hands out. *)
Record Host : Type := {
  heap : gmap positive st_MTensor;
  freed : list MTensor;
  new_status : Z;
  new_cell : T
}.

(** Process-wide state: the three static pointers of [LibDataHolder]
    ([true] when the pointer is not null) and the host. *)
Record World : Type := {
  libData : bool;
  raFuns : bool;
  imgFuns : bool;
  host : Host
}.

(** The test at MArrayBase.h:221 passes: no pointer is null. *)
Definition installed (w : World) : bool := libData w && raFuns w && imgFuns w.

Definition with_host (w : World) (h : Host) : World :=
  {| libData := libData w; raFuns := raFuns w; imgFuns := imgFuns w; host := h |}.

Definition product (ds : list Z) : Z := fold_right Z.mul 1 ds.

Definition deref (t : MTensor) (h : Host) : option st_MTensor :=
  match t with
  | N0 => None
  | Npos p => heap h !! p
  end.

(** [libData->MTensor_new(type, rank, dims, &res)]: on success a fresh
    address holds the new tensor and [res] points to it; on failure
    nothing changes.  The result is the status, the new content of [res]
    and the host. *)
Definition MTensor_new (ty : MType) (rank : mint) (ds : list mint)
    (res : MTensor) (h : Host) : Z * MTensor * Host :=
  if new_status h =? 0 then
    let p := fresh (dom (heap h)) in
    let obj := {| mt_type := ty; mt_rank := rank; mt_dims := ds;
                  mt_flattenedLength := product ds;
                  mt_data := replicate (Z.to_nat (product ds)) (new_cell h) |} in
    (0, Npos p,
     {| heap := <[p := obj]> (heap h); freed := freed h;
        new_status := new_status h; new_cell := new_cell h |})
  else (new_status h, res, h).

(** [libData->MTensor_free(t)]. *)
Definition MTensor_free (t : MTensor) (h : Host) : Host :=
  {| heap := match t with N0 => heap h | Npos p => delete p (heap h) end;
     freed := t :: freed h;
     new_status := new_status h; new_cell := new_cell h |}.

Definition MTensor_getType (t : MTensor) (h : Host) : MType :=
  from_option mt_type MType_Undef (deref t h).

Definition MTensor_getRank (t : MTensor) (h : Host) : mint :=
  from_option mt_rank 0 (deref t h).

Definition MTensor_getFlattenedLength (t : MTensor) (h : Host) : mint :=
  from_option mt_flattenedLength 0 (deref t h).

Definition MTensor_getDimensions (t : MTensor) (h : Host) : list mint :=
  from_option mt_dims [] (deref t h).

(** Writing [vals] through the data pointer of [t], from its first cell. *)
Definition write_cells (vals : list T) (obj : st_MTensor) : st_MTensor :=
  {| mt_type := mt_type obj; mt_rank := mt_rank obj; mt_dims := mt_dims obj;
     mt_flattenedLength := mt_flattenedLength obj;
     mt_data := vals ++ drop (length vals) (mt_data obj) |}.

Definition store_data (t : MTensor) (vals : list T) (h : Host) : Host :=
  {| heap := match t with
             | N0 => heap h
             | Npos p => alter (write_cells vals) p (heap h)
             end;
     freed := freed h; new_status := new_status h; new_cell := new_cell h |}.

(** ** MArrayBase *)

(** Data members of [MArrayBase], MArrayBase.h:137-182 (the table of
    offsets is left out: no property below reads it). *)
Record MArrayBase : Type := {
  flattenedLength : mint;
  depth : mint;
  dims : list mint;
  arrayOwnerQ : bool
}.

(** The class whose member functions a virtual call resolves to.  Inside
    a constructor this is the class of that constructor, not the class of
    the complete object. *)
Inductive Class : Set := Class_MArrayBase | Class_Tensor.

(** [initError()]: MArrayBase.h:168-170 and Tensor.h:155-157. *)
Definition initError (c : Class) : LLErrorCode :=
  match c with
  | Class_MArrayBase => FunctionError
  | Class_Tensor => TensorInitError
  end.

(** [sizeError()]: MArrayBase.h:176-178 and Tensor.h:163-165. *)
Definition sizeError (c : Class) : LLErrorCode :=
  match c with
  | Class_MArrayBase => DimensionsError
  | Class_Tensor => TensorSizeError
  end.

(** MArrayBase.h:235-240. *)
Definition checkContainerSize (c : Class) (v : list Z) : Outcome mint :=
  if MINT_MAX <? Z.of_nat (length v) then Throw (sizeError c)
  else Return (to_mint (Z.of_nat (length v))).

(** Modelled from the spec: the body of [MArrayBase::totalLengthFromDims]
    (declared at MArrayBase.h:216, "Calculate total array length based on
    current value of dims") is not among the sources; the specification
    gives [flattenedLength = product(dimensions)].  The product is
    accumulated in a [mint]. *)
Definition totalLengthFromDims (ds : list mint) : mint :=
  fold_left (fun acc d => to_mint (acc * d)) ds 1.

(** The test applied to every dimension, MArrayBase.h:224-226. *)
Definition dimOk (d : Z) : bool := (0 <? d) && (d <=? MINT_MAX).

(** [MArrayBase::MArrayBase(Container&& dimensions)], MArrayBase.h:219-233.
    The object under construction is an [MArrayBase], so [initError()] and
    [sizeError()] are the ones of [Class_MArrayBase]. *)
Definition MArrayBase_ctor (dimensions : list Z) (w : World) : Outcome MArrayBase :=
  if negb (libData w) || negb (raFuns w) || negb (imgFuns w) then
    Throw (initError Class_MArrayBase)
  else
    bind (checkContainerSize Class_MArrayBase dimensions) (fun rk =>
    if negb (forallb dimOk dimensions) then Throw DimensionsError
    else
      let ds := map to_mint dimensions in
      Return {| flattenedLength := totalLengthFromDims ds; depth := rk;
                dims := ds; arrayOwnerQ := false |}).

(** The assignment [arrayOwnerQ = b]. *)
Definition set_arrayOwnerQ (b : bool) (a : MArrayBase) : MArrayBase :=
  {| flattenedLength := flattenedLength a; depth := depth a; dims := dims a;
     arrayOwnerQ := b |}.

(** ** Tensor *)

(** A [Tensor<T>] object: its base sub-object and [internalMT]. *)
Record Tensor : Type := {
  base : MArrayBase;
  internalMT : MTensor
}.

(** The assignment [this->arrayOwnerQ = b] in a member of [Tensor]. *)
Definition assign_owner (b : bool) (t : Tensor) : Tensor :=
  {| base := set_arrayOwnerQ b (base t); internalMT := internalMT t |}.

(** Modelled from the spec: the body of [MArrayBase::setOwner] (declared at
    MArrayBase.h:133, "Set the ownership of the underlying data structure")
    is not among the sources; it stores its argument in the ownership flag,
    "passing a buffer to the host flips the local ownership flag to not
    owned". *)
Definition setOwner (b : bool) (t : Tensor) : Tensor := assign_owner b t.

(** Whether the destructor will release the handle. *)
Definition owner (t : Tensor) : bool := arrayOwnerQ (base t).

(** [rank()] and [size()], MArrayBase.h:65-67 and 97-99. *)
Definition rank (t : Tensor) : mint := depth (base t).
Definition size (t : Tensor) : mint := flattenedLength (base t).

(** [createInternal()], Tensor.h:175-178: a flat tensor of
    [flattenedLength] cells. *)
Definition createInternal (t : Tensor) (w : World) : Outcome Tensor * World :=
  let '(err, mt, h) :=
    MTensor_new type 1 [flattenedLength (base t)] (internalMT t) (host w) in
  if err =? 0 then (Return {| base := base t; internalMT := mt |}, with_host w h)
  else (Throw TensorNewError, with_host w h).

(** [freeInternal()], Tensor.h:184-186. *)
Definition freeInternal (t : Tensor) (w : World) : World :=
  with_host w (MTensor_free (internalMT t) (host w)).

(** [passInternal(res)], Tensor.h:191-193. *)
Definition passInternal (t : Tensor) (res : MArgument) : MArgument :=
  MArg_MTensor (internalMT t).

(** Modelled from the spec: [Tensor<T>::getData] (declared at Tensor.h:141,
    "Return raw pointer to underlying data") and the iterators of
    [MArray<T>], the class between [MArrayBase] and [Tensor<T>], are not
    among the sources; [begin()] is the data pointer of [internalMT] and
    [end()] lies [flattenedLength] cells further ("exposes element access,
    iteration, and total size").  Writing a sequence from [begin()]: *)
Definition write_from_begin (t : Tensor) (vals : list T) (w : World) : World :=
  with_host w (store_data (internalMT t) vals (host w)).

(** [Tensor(T init, Container&& dims)], Tensor.h:213-219; the base
    sub-object is built by the constructor of [MArrayBase] from [dims]. *)
Definition Tensor_fill (init : T) (dimensions : list Z) (w : World)
    : Outcome Tensor * World :=
  match MArrayBase_ctor dimensions w with
  | Throw e => (Throw e, w)
  | Return b =>
      match createInternal {| base := b; internalMT := nullptr |} w with
      | (Throw e, w1) => (Throw e, w1)
      | (Return t, w1) =>
          let t1 := assign_owner true t in
          (Return t1,
           write_from_begin t1 (replicate (Z.to_nat (size t1)) init) w1)
      end
  end.

(** [Tensor(InputIt first, InputIt last, Container&& dims)],
    Tensor.h:229-237; [range] is the sequence [first, last).  When the
    body throws, the object is not complete: only the destructors of its
    base classes run, and those are defaulted (MArrayBase.h:111). *)
Definition Tensor_range (range : list T) (dimensions : list Z) (w : World)
    : Outcome Tensor * World :=
  match MArrayBase_ctor dimensions w with
  | Throw e => (Throw e, w)
  | Return b =>
      match createInternal {| base := b; internalMT := nullptr |} w with
      | (Throw e, w1) => (Throw e, w1)
      | (Return t, w1) =>
          if negb (Z.of_nat (length range) =? size t) then
            (Throw TensorNewError, w1)
          else
            let t1 := assign_owner true t in
            (Return t1, write_from_begin t1 range w1)
      end
  end.

(** [Tensor(const MTensor t)], Tensor.h:249-262.  The body runs in the
    constructor of [Tensor], so [initError()] is Tensor's. *)
Definition Tensor_wrap (t : MTensor) (w : World) : Outcome Tensor * World :=
  if negb (libData w) then (Throw (initError Class_Tensor), w)
  else if negb (bool_decide (type = MTensor_getType t (host w))) then
    (Throw TensorTypeError, w)
  else
    let rk := MTensor_getRank t (host w) in
    (Return {| base := {| flattenedLength := MTensor_getFlattenedLength t (host w);
                          depth := rk;
                          dims := take (Z.to_nat rk) (MTensor_getDimensions t (host w));
                          arrayOwnerQ := false |};
               internalMT := t |}, w).

(** [Tensor(Tensor<T>&& t2)], Tensor.h:264-269.  The base sub-object is
    initialised from the one of [t2], member by member.  The result is the
    new object and [t2] after the move. *)
Definition Tensor_move (t2 : Tensor) : Tensor * Tensor :=
  let this := {| base := base t2; internalMT := nullptr |} in
  let this := {| base := base this; internalMT := internalMT t2 |} in
  let t2 := {| base := base t2; internalMT := nullptr |} in
  let t2 := assign_owner false t2 in
  (this, t2).

(** [~Tensor()], Tensor.h:271-275. *)
Definition Tensor_dtor (t : Tensor) (w : World) : World :=
  if arrayOwnerQ (base t) then freeInternal t w else w.

(** [passAsResult(res)], MArrayBase.h:118-121: the wrapper afterwards and
    the content of the slot. *)
Definition passAsResult (t : Tensor) (res : MArgument) : Tensor * MArgument :=
  let res := passInternal t res in
  let t := setOwner false t in
  (t, res).

(** The two states the data model names. *)
Definition owner_of_handle (t : Tensor) : Prop :=
  arrayOwnerQ (base t) = true /\ internalMT t <> nullptr.

Definition moved_from (t : Tensor) : Prop :=
  arrayOwnerQ (base t) = false /\ internalMT t = nullptr.

(** A handle the host still keeps storage for. *)
Definition live (t : MTensor) (w : World) : Prop := is_Some (deref t (host w)).

(** The address [MTensor_new] hands out in [w] and the flat tensor of
    [len] cells [createInternal] asks for. *)
Definition new_address (w : World) : positive := fresh (dom (heap (host w))).

Definition new_tensor (w : World) (len : mint) : st_MTensor :=
  {| mt_type := type; mt_rank := 1; mt_dims := [len];
     mt_flattenedLength := product [len];
     mt_data := replicate (Z.to_nat (product [len])) (new_cell (host w)) |}.

(** ** Further members of the containers *)

(** [indexError()], Tensor.h:147-149 (pure virtual in [MArrayBase]). *)
Definition indexError : LLErrorCode := TensorIndexError.

(** [dimension(dim)], MArrayBase.h:88-92, called on a complete [Tensor].
    [dims[dim]] past the end of the vector is undefined in C++; the
    embedding reads 0 there, and [shape_ok] below excludes it. *)
Definition dimension (t : Tensor) (dim : mint) : Outcome mint :=
  if (rank t <=? dim) || (dim <? 0) then Throw indexError
  else Return (nth (Z.to_nat dim) (dims (base t)) 0).

(** The recorded rank is the number of recorded dimensions. *)
Definition shape_ok (t : Tensor) : Prop :=
  depth (base t) = Z.of_nat (length (dims (base t))).

(** A tensor object as the host builds it: as many dimensions as its rank. *)
Definition host_ok (obj : st_MTensor) : Prop :=
  mt_rank obj = Z.of_nat (length (mt_dims obj)).

(** The object the base constructor builds from a shape it accepts. *)
Definition base_of_shape (dimensions : list Z) : MArrayBase :=
  {| flattenedLength := totalLengthFromDims dimensions;
     depth := Z.of_nat (length dimensions);
     dims := dimensions; arrayOwnerQ := false |}.

(** The world [w] once [MTensor_new] has put a flat tensor of [len] cells at
    the fresh address and [vals] has been written from its first cell, and
    the owner of that tensor with base sub-object [b]. *)
Definition world_with_new (w : World) (len : mint) (vals : list T) : World :=
  with_host w
    {| heap := <[new_address w :=
                   write_cells vals (new_tensor w len)]> (heap (host w));
       freed := freed (host w); new_status := new_status (host w);
       new_cell := new_cell (host w) |}.

Definition owned_at (w : World) (b : MArrayBase) : Tensor :=
  {| base := set_arrayOwnerQ true b; internalMT := Npos (new_address w) |}.

End Containers.

(** ** The argument manager *)

Module MArgumentManager.

(** [MArgumentManager::setInteger] is declared at MArgumentManager.h:110
    ("Set result as output MArgument"); the output slot [res] then holds
    the [mint] it was given. *)
Definition setInteger (result : mint) : MArgument := MArg_Integer result.

(** In [result >= MINT_MAX] the operands have types [T] and [mint]; the
    usual arithmetic conversions pick the type in which the comparison is
    made.  Every [T] narrower than 64 bits and every signed [T] is
    converted to the 64-bit signed type.  An unsigned 64-bit [T] has the
    rank of [mint], so the [mint] operand is converted to unsigned. *)
Definition compares_unsigned (T : IntegralT) : bool :=
  negb (is_signed T) && (64 <=? width T).

(** Value of a [mint] constant once converted to the comparison type. *)
Definition as_operand (T : IntegralT) (m : mint) : Z :=
  if compares_unsigned T then m mod 2 ^ 64 else m.

(** MArgumentManager.h:335-350.  The pair is the content of the output
    slot and the returned flag. *)
Definition setMintAndCheck (T : IntegralT) (result : Z) : MArgument * bool :=
  if as_operand T MINT_MAX <=? result then
    (setInteger MINT_MAX, true)
  else if result <=? as_operand T MINT_MIN then
    (setInteger MINT_MIN, true)
  else
    (setInteger (to_mint result), false).

(** What the documentation asks for: the value clamped into the range of
    [mint], and whether a bound was reached. *)
Definition clamp (v : Z) : mint := Z.max MINT_MIN (Z.min MINT_MAX v).
Definition reaches_bound (v : Z) : bool := (MINT_MAX <=? v) || (v <=? MINT_MIN).

(** *** Runtime type dispatch *)

(** How an element is laid out: an integer of some signedness and width, a
    real of some width, or a complex number with components of some
    width. *)
Inductive Repr : Set :=
| R_int (signed : bool) (bits : Z)
| R_real (bits : Z)
| R_complex (bits : Z).

Global Instance Repr_eq_dec : EqDecision Repr.
Proof. solve_decision. Defined.

Definition repr_of (T : ElementT) : Repr :=
  match T with
  | Integral i => R_int (is_signed i) (width i)
  | float_t => R_real 32
  | double_t => R_real 64
  | complex_float_t => R_complex 32
  | complex_double_t => R_complex 64
  end.

Definition element_types : list ElementT :=
  [Integral int8_t; Integral uint8_t; Integral int16_t; Integral uint16_t;
   Integral int32_t; Integral uint32_t; Integral int64_t; Integral uint64_t;
   float_t; double_t; complex_float_t; complex_double_t].

(** The native element type with a given layout. *)
Definition native_with (r : Repr) : option ElementT :=
  find (fun T => bool_decide (repr_of T = r)) element_types.

(** The layout each tag stands for: 8/16/32/64-bit signed and unsigned
    integers, 32/64-bit reals, complex float and complex double. *)
Definition rawarray_repr (tag : rawarray_t) : option Repr :=
  match tag with
  | MRawArray_Type_Undef => None
  | MRawArray_Type_Bit8 => Some (R_int true 8)
  | MRawArray_Type_Ubit8 => Some (R_int false 8)
  | MRawArray_Type_Bit16 => Some (R_int true 16)
  | MRawArray_Type_Ubit16 => Some (R_int false 16)
  | MRawArray_Type_Bit32 => Some (R_int true 32)
  | MRawArray_Type_Ubit32 => Some (R_int false 32)
  | MRawArray_Type_Bit64 => Some (R_int true 64)
  | MRawArray_Type_Ubit64 => Some (R_int false 64)
  | MRawArray_Type_Real32 => Some (R_real 32)
  | MRawArray_Type_Real64 => Some (R_real 64)
  | MRawArray_Type_Float_Complex => Some (R_complex 32)
  | MRawArray_Type_Double_Complex => Some (R_complex 64)
  end.

(** Tensors hold [mint], [double] or [std::complex<double>]. *)
Definition tensor_repr (tag : MType) : option Repr :=
  match tag with
  | MType_Integer => Some (R_int true 64)
  | MType_Real => Some (R_real 64)
  | MType_Complex => Some (R_complex 64)
  | MType_Undef | MType_Boolean => None
  end.

(** The native element type mapped from a tag, if the tag is supported. *)
Definition rawarray_native (tag : rawarray_t) : option ElementT :=
  match rawarray_repr tag with
  | Some r => native_with r
  | None => None
  end.

Definition tensor_native (tag : MType) : option ElementT :=
  match tensor_repr tag with
  | Some r => native_with r
  | None => None
  end.

(** Modelled from the spec: the specialisations of [Image<T>::type], which
    fix the tag of each [Image<T>], are not under src/.  The supported
    tags are the five kinds of image the specification lists (1-bit,
    8-bit, 16-bit, float32, float64), and the layout taken for a tag is
    the cell that holds one pixel of that kind: a 1-bit pixel sits in a
    signed 8-bit cell, 8-bit and 16-bit pixels in unsigned cells of
    their width, real pixels in 32-bit and 64-bit reals. *)
Definition image_repr (tag : imagedata_t) : option Repr :=
  match tag with
  | MImage_Type_Undef => None
  | MImage_Type_Bit => Some (R_int true 8)
  | MImage_Type_Bit8 => Some (R_int false 8)
  | MImage_Type_Bit16 => Some (R_int false 16)
  | MImage_Type_Real32 => Some (R_real 32)
  | MImage_Type_Real => Some (R_real 64)
  end.

Definition image_native (tag : imagedata_t) : option ElementT :=
  match image_repr tag with
  | Some r => native_with r
  | None => None
  end.

Section Dispatch.

(** [RawArrayW T], [TensorW T] and [ImageW T] stand for the classes
    [RawArray<T>], [Tensor<T>] and [Image<T>]; the accessors of the
    manager are declared at MArgumentManager.h:170-268, and an
    [Operator] is a callable with a templated [operator()], here with
    the extra arguments already supplied. *)
Context {R : Type}.
Variables RawArrayW TensorW ImageW : ElementT -> Type.
Variable getRawArrayType : nat -> Outcome rawarray_t.
Variable getRawArray : forall T : ElementT, nat -> Outcome (RawArrayW T).
Variable getTensorType : nat -> Outcome MType.
Variable getTensor : forall T : ElementT, nat -> Outcome (TensorW T).
Variable getImageType : nat -> Outcome imagedata_t.
Variable getImage : forall T : ElementT, nat -> Outcome (ImageW T).
Variable opRawArray : forall T : ElementT, RawArrayW T -> Outcome R.
Variable opTensor : forall T : ElementT, TensorW T -> Outcome R.
Variable opImage : forall T : ElementT, ImageW T -> Outcome R.

(** [op(this->getRawArray<T>(index), args...)]. *)
Definition callRawArray (T : ElementT) (index : nat) : Outcome R :=
  bind (getRawArray T index) (opRawArray T).

Definition callTensor (T : ElementT) (index : nat) : Outcome R :=
  bind (getTensor T index) (opTensor T).

Definition callImage (T : ElementT) (index : nat) : Outcome R :=
  bind (getImage T index) (opImage T).

(** MArgumentManager.h:362-405. *)
Definition operateOnRawArray (index : nat) : Outcome R :=
  bind (getRawArrayType index) (fun tag =>
    match tag with
    | MRawArray_Type_Bit8 => callRawArray (Integral int8_t) index
    | MRawArray_Type_Ubit8 => callRawArray (Integral uint8_t) index
    | MRawArray_Type_Bit16 => callRawArray (Integral int16_t) index
    | MRawArray_Type_Ubit16 => callRawArray (Integral uint16_t) index
    | MRawArray_Type_Bit32 => callRawArray (Integral int32_t) index
    | MRawArray_Type_Ubit32 => callRawArray (Integral uint32_t) index
    | MRawArray_Type_Bit64 => callRawArray (Integral int64_t) index
    | MRawArray_Type_Ubit64 => callRawArray (Integral uint64_t) index
    | MRawArray_Type_Real32 => callRawArray float_t index
    | MRawArray_Type_Real64 => callRawArray double_t index
    | MRawArray_Type_Float_Complex => callRawArray complex_float_t index
    | MRawArray_Type_Double_Complex => callRawArray complex_double_t index
    | _ => Throw MArgumentRawArrayError
    end).

(** MArgumentManager.h:420-436; [mint] is the 64-bit signed integer. *)
Definition operateOnTensor (index : nat) : Outcome R :=
  bind (getTensorType index) (fun tag =>
    match tag with
    | MType_Integer => callTensor (Integral int64_t) index
    | MType_Real => callTensor double_t index
    | MType_Complex => callTensor complex_double_t index
    | _ => Throw MArgumentTensorError
    end).

(** MArgumentManager.h:448-470. *)
Definition operateOnImage (index : nat) : Outcome R :=
  bind (getImageType index) (fun tag =>
    match tag with
    | MImage_Type_Bit => callImage (Integral int8_t) index
    | MImage_Type_Bit8 => callImage (Integral uint8_t) index
    | MImage_Type_Bit16 => callImage (Integral uint16_t) index
    | MImage_Type_Real32 => callImage float_t index
    | MImage_Type_Real => callImage double_t index
    | _ => Throw MArgumentImageError
    end).

End Dispatch.

End MArgumentManager.

(** ** The error manager *)

Module ErrorManager.

(** A [LibraryLinkError] as ErrorManager.cpp builds and reads it: the
    constructor takes the id, the name and the message, and [id()] and
    [message()] read them back (the class is declared in
    LLU/LibraryLinkError.h). *)
Record LibraryLinkError : Type := {
  err_id : Z;
  err_name : string;
  err_message : string
}.

Global Instance LibraryLinkError_eq_dec : EqDecision LibraryLinkError.
Proof. solve_decision. Defined.

(** [ErrorStringData]: a name and a message. *)
Definition ErrorStringData : Type := string * string.

(** Outcome of a member of the manager: it returns, it throws a
    [LibraryLinkError], or it dereferences [errors().end()], which is
    undefined. *)
Inductive Result (A : Type) : Type :=
| Ok (a : A)
| Raise (e : LibraryLinkError)
| Undefined.

Arguments Ok {A} a.
Arguments Raise {A} e.
Arguments Undefined {A}.

(** The ids are [int]s. *)
Definition INT_MAX : Z := 2 ^ 31 - 1.
Definition INT_MIN : Z := - 2 ^ 31.
Definition wrap_int (z : Z) : Z := (z + 2 ^ 31) mod 2 ^ 32 - 2 ^ 31.

(** The two static objects: the map behind [errors()] and the counter
    behind [nextErrorId()]. *)
Record State : Type := {
  errors : gmap string LibraryLinkError;
  nextErrorId : Z
}.

(** [map.emplace(key, value)]: the map afterwards, the element now under
    [key], and whether [value] was inserted.  An existing element is kept. *)
Definition emplace (key : string) (value : LibraryLinkError)
    (m : gmap string LibraryLinkError)
    : gmap string LibraryLinkError * LibraryLinkError * bool :=
  match m !! key with
  | Some old => (m, old, false)
  | None => (<[key := value]> m, value, true)
  end.

(** One turn of the loop of [registerLLUErrors], ErrorManager.cpp:122-124:
    the counter is decremented whether or not the element is inserted. *)
Definition register_step (acc : gmap string LibraryLinkError * Z)
    (err : ErrorStringData) : gmap string LibraryLinkError * Z :=
  let '(m, _, _) :=
    emplace (fst err)
      {| err_id := snd acc; err_name := fst err; err_message := snd err |}
      (fst acc) in
  (m, wrap_int (snd acc - 1)).

(** [registerLLUErrors(initList)], ErrorManager.cpp:120-126, with the
    counter passed in and out. *)
Definition registerLLUErrors (initList : list ErrorStringData) (next : Z)
    : gmap string LibraryLinkError * Z :=
  fold_left register_step initList (empty, next).

(** The state once [errors()] has run its initialiser on [initList], the
    counter starting at [start] ([ErrorCode::VersionError] for the list
    below). *)
Definition initial (initList : list ErrorStringData) (start : Z) : State :=
  {| errors := fst (registerLLUErrors initList start);
     nextErrorId := snd (registerLLUErrors initList start) |}.

(** [throw errors().find(name)->second]. *)
Definition throw_registered {A : Type} (name : string) (st : State) : Result A :=
  match errors st !! name with
  | Some e => Raise e
  | None => Undefined
  end.

(** [set(errorData)], ErrorManager.cpp:134-146. *)
Definition set (errorData : ErrorStringData) (st : State) : Result unit * State :=
  let '(m, elem, inserted) :=
    emplace (fst errorData)
      {| err_id := nextErrorId st; err_name := fst errorData;
         err_message := snd errorData |}
      (errors st) in
  let st1 := {| errors := m; nextErrorId := wrap_int (nextErrorId st - 1) |} in
  if inserted then (Ok tt, st1)
  else
    let st2 := {| errors := m; nextErrorId := wrap_int (nextErrorId st1 + 1) |} in
    if bool_decide (err_message elem = snd errorData) then (Ok tt, st2)
    else (throw_registered "ErrorManagerCreateNameError" st2, st2).

(** [registerPacletErrors(errs)], ErrorManager.cpp:128-132: the loop stops
    at the first [set] that throws. *)
Fixpoint registerPacletErrors (errs : list ErrorStringData) (st : State)
    : Result unit * State :=
  match errs with
  | [] => (Ok tt, st)
  | err :: rest =>
      match set err st with
      | (Ok _, st1) => registerPacletErrors rest st1
      | (r, st1) => (r, st1)
      end
  end.

(** [findError(int errorId)], ErrorManager.cpp:148-155.  The loop visits the
    elements of the map in the order of the container. *)
Definition findError_id (errorId : Z) (st : State) : Result LibraryLinkError :=
  match find (fun err => err_id (snd err) =? errorId) (map_to_list (errors st)) with
  | Some err => Ok (snd err)
  | None => throw_registered "ErrorManagerThrowIdError" st
  end.

(** [findError(const std::string& errorName)], ErrorManager.cpp:157-163. *)
Definition findError_name (errorName : string) (st : State) : Result LibraryLinkError :=
  match errors st !! errorName with
  | Some e => Ok e
  | None => throw_registered "ErrorManagerThrowNameError" st
  end.

(** The double quote character. *)
Definition dq : string := String (Ascii.Ascii false true false false false true false false) EmptyString.

(** The list given to [registerLLUErrors] in [errors()],
    ErrorManager.cpp:16-111.  Modelled from the spec: the constants of
    [ErrorName] are defined outside the sources at hand; each is taken to be
    the string of its identifier, as the literals in [set] and [findError]
    show for the three errors of the manager ("a typed exception carrying the
    symbolic name"). *)
Definition LLUErrors : list ErrorStringData := [
  ("VersionError", "An error was caused by an incompatible function call. The library was compiled with a previous LibraryData version.");
  ("FunctionError", "An error occurred in the library function.");
  ("MemoryError", "An error was caused by failed memory allocation or insufficient memory.");
  ("NumericalError", "A numerical error was encountered.");
  ("DimensionsError", "An error caused by inconsistent dimensions or by exceeding array bounds.");
  ("RankError", "An error was caused by a tensor with an inconsistent rank.");
  ("TypeError", "An error caused by inconsistent types was encountered.");
  ("NoError", "No errors occurred.");
  ("LibDataError", "WolframLibraryData is not set. Make sure to call LibraryData::setLibraryData in WolframLibrary_initialize.");
  ("MArgumentIndexError", "An error was caused by an incorrect argument index.");
  ("MArgumentNumericArrayError", "An error was caused by a NumericArray argument.");
  ("MArgumentTensorError", "An error was caused by a Tensor argument.");
  ("MArgumentImageError", "An error was caused by an Image argument.");
  ("ErrorManagerThrowIdError", "An exception was thrown with a non-existent id.");
  ("ErrorManagerThrowNameError", "An exception was thrown with a non-existent name.");
  ("ErrorManagerCreateNameError", "An exception was registered with a name that already exists.");
  ("NumericArrayNewError", "Failed to create a new NumericArray.");
  ("NumericArrayCloneError", "Failed to clone NumericArray.");
  ("NumericArrayTypeError", "An error was caused by an NumericArray type mismatch.");
  ("NumericArraySizeError", "An error was caused by an incorrect NumericArray size.");
  ("NumericArrayIndexError", "An error was caused by attempting to access a nonexistent NumericArray element.");
  ("NumericArrayConversionError", "Failed to convert NumericArray from different type.");
  ("TensorNewError", "Failed to create a new MTensor.");
  ("TensorCloneError", "Failed to clone MTensor.");
  ("TensorTypeError", "An error was caused by an MTensor type mismatch.");
  ("TensorSizeError", "An error was caused by an incorrect Tensor size.");
  ("TensorIndexError", "An error was caused by attempting to access a nonexistent Tensor element.");
  ("ImageNewError", "Failed to create a new MImage.");
  ("ImageCloneError", "Failed to clone MImage.");
  ("ImageTypeError", "An error was caused by an MImage type mismatch.");
  ("ImageSizeError", "An error was caused by an incorrect Image size.");
  ("ImageIndexError", "An error was caused by attempting to access a nonexistent Image element.");
  ("CreateFromNullError", "Attempting to create a generic container from nullptr.");
  ("MArrayElementIndexError", "Attempting to access MArray element at invalid index.");
  ("MArrayElementIndexError", "Attempting to access MArray dimension `d` which does not exist.");
  ("MLNullMlinkError", "Trying to create MLStream with NULL MLINK");
  ("MLTestHeadError", "MLTestHead failed (wrong head or number of arguments).");
  ("MLPutSymbolError", "MLPutSymbol failed.");
  ("MLPutFunctionError", "MLPutFunction failed.");
  ("MLTestSymbolError", "MLTestSymbol failed (different symbol on the link than expected).");
  ("MLWrongSymbolForBool", "Tried to read something else than " +:+ dq +:+ "True" +:+ dq +:+ " or " +:+ dq +:+ "False" +:+ dq +:+ " as boolean.");
  ("MLGetListError", "Could not get list from MathLink.");
  ("MLGetScalarError", "Could not get scalar from MathLink.");
  ("MLGetStringError", "Could not get string from MathLink.");
  ("MLGetArrayError", "Could not get array from MathLink.");
  ("MLPutListError", "Could not send list via MathLink.");
  ("MLPutScalarError", "Could not send scalar via MathLink.");
  ("MLPutStringError", "Could not send string via MathLink.");
  ("MLPutArrayError", "Could not send array via MathLink.");
  ("MLGetSymbolError", "MLGetSymbol failed.");
  ("MLGetFunctionError", "MLGetFunction failed.");
  ("MLPacketHandleError", "One of the packet handling functions failed.");
  ("MLFlowControlError", "One of the flow control functions failed.");
  ("MLTransferToLoopbackError", "Something went wrong when transferring expressions from loopback link.");
  ("MLCreateLoopbackError", "Could not create a new loopback link.");
  ("MLLoopbackStackSizeError", "Loopback stack size too small to perform desired action.");
  ("DLNullRawNode", "DataStoreNode passed to Node wrapper was null");
  ("DLInvalidNodeType", "DataStoreNode passed to Node wrapper carries data of invalid type");
  ("DLGetNodeDataError", "DataStoreNode_getData failed");
  ("DLNullRawDataStore", "DataStore passed to DataList was null");
  ("DLPushBackTypeError", "Element to be added to the DataList has incorrect type");
  ("ArgumentCreateNull", "Trying to create Argument object from nullptr");
  ("ArgumentAddNodeMArgument", "Trying to add DataStore Node of type MArgument (aka MType_Undef)");
  ("Aborted", "Computation aborted by the user.");
  ("ManagedExprInvalidID", "Given number is not an ID of any existing managed expression.");
  ("MLEDynamicTypeError", "Invalid dynamic type requested for a Managed Library Expression")
].

(** What the members rely on. *)

(** The state has not run out of ids. *)
Definition in_int (z : Z) : Prop := INT_MIN <= z <= INT_MAX.

(** Every element sits under its own name, carries an id above the counter,
    and no two elements share an id. *)
Definition consistent (st : State) : Prop :=
  (forall k e, errors st !! k = Some e ->
     err_name e = k /\ nextErrorId st < err_id e) /\
  (forall k1 k2 e1 e2,
     errors st !! k1 = Some e1 -> errors st !! k2 = Some e2 ->
     err_id e1 = err_id e2 -> k1 = k2).

(** The three errors the manager itself throws are registered. *)
Definition self_registered (st : State) : Prop :=
  is_Some (errors st !! "ErrorManagerCreateNameError") /\
  is_Some (errors st !! "ErrorManagerThrowIdError") /\
  is_Some (errors st !! "ErrorManagerThrowNameError").

(** [st2] keeps every element of [st1] as it is. *)
Definition extends (st1 st2 : State) : Prop :=
  forall k e, errors st1 !! k = Some e -> errors st2 !! k = Some e.

End ErrorManager.

(** ** Sample worlds *)

Module Sample.

(** A host with nothing allocated whose allocator succeeds. *)
Definition host_empty : @Host Z :=
  {| heap := empty; freed := []; new_status := 0; new_cell := 0 |}.

(** LibraryLink initialised / not initialised. *)
Definition world_on : @World Z :=
  {| libData := true; raFuns := true; imgFuns := true; host := host_empty |}.

Definition world_off : @World Z :=
  {| libData := false; raFuns := false; imgFuns := false; host := host_empty |}.

(** A 2 x 3 integer tensor owned by the kernel, at address 1. *)
Definition kernel_tensor : @st_MTensor Z :=
  {| mt_type := MType_Integer; mt_rank := 2; mt_dims := [2; 3];
     mt_flattenedLength := 6; mt_data := [10; 20; 30; 40; 50; 60] |}.

Definition world_arg : @World Z :=
  {| libData := true; raFuns := true; imgFuns := true;
     host := {| heap := <[1%positive := kernel_tensor]> empty; freed := [];
                new_status := 0; new_cell := 0 |} |}.

(** A 2 x 2 tensor constructed by the library, which owns it. *)
Definition owned_tensor : Tensor :=
  {| base := {| flattenedLength := 4; depth := 2; dims := [2; 2];
                arrayOwnerQ := true |};
     internalMT := 1%N |}.

(** The range constructor given three elements for the shape 2 x 2. *)
Definition mismatch_run : Outcome Tensor * @World Z :=
  Tensor_range MType_Integer [1; 2; 3] [2; 2] world_on.

End Sample.

(** ** Further samples *)

Module SampleMore.

(** [Tensor<mint>(7, {2, 3})] in an initialised world, and the tensor it
    returns. *)
Definition filled_run : Outcome Tensor * @World Z :=
  Tensor_fill MType_Integer 7 [2; 3] Sample.world_on.

Definition filled_tensor : Tensor :=
  {| base := {| flattenedLength := 6; depth := 2; dims := [2; 3];
                arrayOwnerQ := true |};
     internalMT := 1%N |}.

(** The registry after [errors()] has run, the counter starting at
    [ErrorCode::VersionError], which is LIBRARY_VERSION_ERROR (7) of
    WolframLibrary.h. *)
Definition registry : ErrorManager.State :=
  ErrorManager.initial ErrorManager.LLUErrors 7.

Definition FunctionError_entry : ErrorManager.LibraryLinkError :=
  {| ErrorManager.err_id := 6;
     ErrorManager.err_name := "FunctionError";
     ErrorManager.err_message := "An error occurred in the library function." |}.

Definition ThrowNameError_entry : ErrorManager.LibraryLinkError :=
  {| ErrorManager.err_id := -7;
     ErrorManager.err_name := "ErrorManagerThrowNameError";
     ErrorManager.err_message :=
       "An exception was thrown with a non-existent name." |}.

Definition ThrowIdError_entry : ErrorManager.LibraryLinkError :=
  {| ErrorManager.err_id := -6;
     ErrorManager.err_name := "ErrorManagerThrowIdError";
     ErrorManager.err_message :=
       "An exception was thrown with a non-existent id." |}.

End SampleMore.

(** * Properties *)

(** ** Machine integers *)

Lemma to_mint_small (z : Z) : MINT_MIN <= z <= MINT_MAX -> to_mint z = z.
Proof.
  unfold to_mint, MINT_MIN, MINT_MAX. intros Hz.
  rewrite Z.mod_small; lia.
Qed.

Lemma to_mint_range (z : Z) : MINT_MIN <= to_mint z <= MINT_MAX.
Proof.
  unfold to_mint, MINT_MIN, MINT_MAX.
  pose proof (Z.mod_pos_bound (z + 2 ^ 63) (2 ^ 64)). lia.
Qed.

(** ** Properties of [setMintAndCheck] *)

Module MArgumentManagerFacts.
Import MArgumentManager.

Lemma in_range_64 (T : IntegralT) (v : Z) :
  in_range T v -> - 2 ^ 63 <= v <= 2 ^ 64 - 1.
Proof.
  unfold in_range, T_min, T_max. destruct T; simpl; lia.
Qed.

(** For every signed type and every unsigned type narrower than [mint] the
    function clamps and reports as documented. *)
Lemma setMintAndCheck_exact (T : IntegralT) (v : Z) :
  compares_unsigned T = false ->
  in_range T v ->
  setMintAndCheck T v = (MArg_Integer (clamp v), reaches_bound v).
Proof.
  intros HT Hv. apply in_range_64 in Hv as Hv64.
  unfold setMintAndCheck, as_operand, clamp, reaches_bound, setInteger.
  rewrite HT.
  destruct (MINT_MAX <=? v) eqn:Hmax; simpl.
  - apply Z.leb_le in Hmax.
    replace (Z.max MINT_MIN (Z.min MINT_MAX v)) with MINT_MAX; [done |].
    unfold MINT_MAX, MINT_MIN in *. lia.
  - apply Z.leb_gt in Hmax.
    destruct (v <=? MINT_MIN) eqn:Hmin.
    + apply Z.leb_le in Hmin.
      replace (Z.max MINT_MIN (Z.min MINT_MAX v)) with MINT_MIN; [done |].
      unfold MINT_MAX, MINT_MIN in *. lia.
    + apply Z.leb_gt in Hmin.
      rewrite to_mint_small by lia.
      replace (Z.max MINT_MIN (Z.min MINT_MAX v)) with v; [done |].
      unfold MINT_MAX, MINT_MIN in *. lia.
Qed.

(** With an unsigned 64-bit argument below [MINT_MAX] the second test
    compares against [2^63] and succeeds. *)
Lemma setMintAndCheck_uint64_below (v : Z) :
  0 <= v < MINT_MAX ->
  setMintAndCheck uint64_t v = (MArg_Integer MINT_MIN, true).
Proof.
  intros Hv. unfold setMintAndCheck, as_operand, setInteger. simpl.
  change (MINT_MAX mod 2 ^ 64) with MINT_MAX.
  change (MINT_MIN mod 2 ^ 64) with (2 ^ 63).
  destruct (MINT_MAX <=? v) eqn:Hmax; [apply Z.leb_le in Hmax; lia |].
  destruct (v <=? 2 ^ 63) eqn:Hmin; [reflexivity |].
  apply Z.leb_gt in Hmin. unfold MINT_MAX in Hv. lia.
Qed.

(** C10: [setMintAndCheck] on the unsigned 64-bit value 5.  The value lies
    strictly between the bounds, so the clamped value is 5 and no bound is
    reached; the code stores [MINT_MIN] and returns [true]. *)
Theorem setMintAndCheck_uint64_5 :
  in_range uint64_t 5 /\
  clamp 5 = 5 /\ reaches_bound 5 = false /\
  setMintAndCheck uint64_t 5 = (MArg_Integer MINT_MIN, true).
Proof.
  split; [unfold in_range, T_min, T_max; cbn; lia |].
  split; [reflexivity |]. split; [reflexivity |].
  apply setMintAndCheck_uint64_below. unfold MINT_MAX. lia.
Qed.

End MArgumentManagerFacts.

(** ** Shapes *)

Lemma product_pos (ds : list Z) :
  Forall (fun d => 0 < d) ds -> 1 <= product ds.
Proof.
  induction 1 as [| d ds Hd _ IH]; simpl; [lia | nia].
Qed.

Lemma product_ge_entry (ds : list Z) (d : Z) :
  Forall (fun d => 0 < d) ds -> In d ds -> d <= product ds.
Proof.
  induction 1 as [| e ds He Hds IH]; simpl; [tauto |].
  pose proof (product_pos ds Hds) as Hp.
  intros [-> | Hin]; [nia |].
  specialize (IH Hin). nia.
Qed.

(** The accumulation never leaves the range of [mint] when the dimensions
    are positive and their product fits, because every partial product is
    bounded by the whole product. *)
Lemma fold_totalLength (ds : list Z) (acc : Z) :
  Forall (fun d => 0 < d) ds ->
  1 <= acc ->
  acc * product ds <= MINT_MAX ->
  fold_left (fun a d => to_mint (a * d)) ds acc = acc * product ds.
Proof.
  intros Hds. revert acc.
  induction Hds as [| d ds Hd Hds IH]; intros acc Hacc Hfit; simpl in *.
  - lia.
  - pose proof (product_pos ds Hds) as Hp.
    assert (Hstep : to_mint (acc * d) = acc * d).
    { apply to_mint_small. unfold MINT_MIN, MINT_MAX in *. nia. }
    rewrite Hstep, IH; [lia | nia | ].
    replace (acc * d * product ds) with (acc * (d * product ds)) by lia.
    exact Hfit.
Qed.

Lemma totalLengthFromDims_product (ds : list Z) :
  Forall (fun d => 0 < d) ds ->
  product ds <= MINT_MAX ->
  totalLengthFromDims ds = product ds.
Proof.
  intros Hds Hfit. unfold totalLengthFromDims.
  rewrite fold_totalLength; [lia | assumption | lia | lia].
Qed.

Lemma map_to_mint_id (ds : list Z) :
  Forall (fun d => 0 < d) ds ->
  product ds <= MINT_MAX ->
  map to_mint ds = ds.
Proof.
  intros Hds Hfit.
  rewrite <- (map_id ds) at 2. apply map_ext_in. intros d Hin.
  apply to_mint_small.
  pose proof (product_ge_entry ds d Hds Hin).
  rewrite List.Forall_forall in Hds. specialize (Hds d Hin).
  unfold MINT_MIN, MINT_MAX in *. lia.
Qed.

Lemma forallb_dimOk (ds : list Z) :
  Forall (fun d => 0 < d) ds ->
  product ds <= MINT_MAX ->
  forallb dimOk ds = true.
Proof.
  intros Hds Hfit. apply forallb_forall. intros d Hin.
  pose proof (product_ge_entry ds d Hds Hin).
  rewrite List.Forall_forall in Hds. specialize (Hds d Hin).
  unfold dimOk. apply andb_true_intro. split; [apply Z.ltb_lt | apply Z.leb_le]; lia.
Qed.

Lemma forallb_dimOk_nonpositive (ds : list Z) :
  Exists (fun d => d <= 0) ds -> forallb dimOk ds = false.
Proof.
  induction 1 as [d ds Hd | d ds _ IH]; simpl.
  - unfold dimOk. replace (0 <? d) with false; [reflexivity |].
    symmetry. apply Z.ltb_ge. exact Hd.
  - rewrite IH. apply andb_false_r.
Qed.

(** ** Construction *)

Section ConstructionFacts.

Context {T : Type}.
Variable type : MType.

Implicit Types (w : @World T) (t : Tensor) (dimensions : list Z).

Lemma new_address_fresh w : heap (host w) !! new_address w = None.
Proof.
  apply not_elem_of_dom. unfold new_address. apply is_fresh.
Qed.

Lemma installed_true w :
  installed w = true ->
  negb (libData w) || negb (raFuns w) || negb (imgFuns w) = false.
Proof.
  unfold installed. destruct (libData w), (raFuns w), (imgFuns w); simpl; congruence.
Qed.

Lemma installed_false w :
  installed w = false ->
  negb (libData w) || negb (raFuns w) || negb (imgFuns w) = true.
Proof.
  unfold installed. destruct (libData w), (raFuns w), (imgFuns w); simpl; congruence.
Qed.

Lemma checkContainerSize_fits (c : Class) (v : list Z) :
  Z.of_nat (length v) <= MINT_MAX ->
  checkContainerSize c v = Return (Z.of_nat (length v)).
Proof.
  intros Hlen. unfold checkContainerSize.
  destruct (MINT_MAX <? Z.of_nat (length v)) eqn:Hlt.
  - apply Z.ltb_lt in Hlt. lia.
  - rewrite to_mint_small; [reflexivity |]. unfold MINT_MIN, MINT_MAX in *. lia.
Qed.

(** The base constructor on a valid shape. *)
Lemma MArrayBase_ctor_valid dimensions w :
  installed w = true ->
  Z.of_nat (length dimensions) <= MINT_MAX ->
  Forall (fun d => 0 < d) dimensions ->
  product dimensions <= MINT_MAX ->
  MArrayBase_ctor dimensions w =
    Return {| flattenedLength := product dimensions;
              depth := Z.of_nat (length dimensions);
              dims := dimensions; arrayOwnerQ := false |}.
Proof.
  intros Hon Hlen Hpos Hfit. unfold MArrayBase_ctor.
  rewrite (installed_true w Hon), (checkContainerSize_fits _ _ Hlen). simpl.
  rewrite (forallb_dimOk _ Hpos Hfit). simpl.
  rewrite (map_to_mint_id _ Hpos Hfit).
  rewrite (totalLengthFromDims_product _ Hpos Hfit). reflexivity.
Qed.

(** The base constructor on a shape with a non-positive entry. *)
Lemma MArrayBase_ctor_nonpositive dimensions w :
  installed w = true ->
  Exists (fun d => d <= 0) dimensions ->
  MArrayBase_ctor dimensions w = Throw DimensionsError.
Proof.
  intros Hon Hbad. unfold MArrayBase_ctor.
  rewrite (installed_true w Hon). unfold checkContainerSize.
  destruct (MINT_MAX <? Z.of_nat (length dimensions)); simpl; [reflexivity |].
  rewrite (forallb_dimOk_nonpositive _ Hbad). reflexivity.
Qed.

Lemma MArrayBase_ctor_not_installed dimensions w :
  installed w = false ->
  MArrayBase_ctor dimensions w = Throw FunctionError.
Proof.
  intros Hoff. unfold MArrayBase_ctor. rewrite (installed_false w Hoff). reflexivity.
Qed.

(** Every object the base constructor returns is not an owner. *)
Lemma MArrayBase_ctor_not_owner dimensions w b :
  MArrayBase_ctor dimensions w = Return b -> arrayOwnerQ b = false.
Proof.
  unfold MArrayBase_ctor.
  destruct (negb (libData w) || negb (raFuns w) || negb (imgFuns w)); [discriminate |].
  destruct (checkContainerSize Class_MArrayBase dimensions); simpl; [| discriminate].
  destruct (negb (forallb dimOk dimensions)); [discriminate |].
  intros [= <-]. reflexivity.
Qed.

(** [createInternal] when the host allocates. *)
Lemma createInternal_ok t w :
  new_status (host w) = 0 ->
  createInternal type t w =
    (Return {| base := base t; internalMT := Npos (new_address w) |},
     with_host w
       {| heap := <[new_address w := new_tensor type w (flattenedLength (base t))]>
                    (heap (host w));
          freed := freed (host w); new_status := new_status (host w);
          new_cell := new_cell (host w) |}).
Proof.
  intros Hok. unfold createInternal, MTensor_new. rewrite Hok. reflexivity.
Qed.

(** [createInternal] when the host refuses. *)
Lemma createInternal_fails t w :
  new_status (host w) <> 0 ->
  createInternal type t w = (Throw TensorNewError, w).
Proof.
  intros Hko. unfold createInternal, MTensor_new.
  destruct (new_status (host w) =? 0) eqn:E; [apply Z.eqb_eq in E; contradiction |].
  rewrite E. destruct w as [? ? ? []]. reflexivity.
Qed.

Lemma product_singleton (len : Z) : product [len] = len.
Proof. unfold product. simpl. lia. Qed.

Lemma write_all_cells (vals : list T) (obj : st_MTensor) :
  length (mt_data obj) = length vals ->
  mt_data (write_cells vals obj) = vals.
Proof.
  intros Hlen. unfold write_cells. simpl.
  rewrite drop_ge by lia. apply app_nil_r.
Qed.

(** C4: a shape whose entries are positive and whose product fits in
    [mint] yields a tensor with [size()] the product and [rank()] the
    number of dimensions (LibraryLink initialised, the host allocating,
    the container no longer than [MINT_MAX]); the tensor owns its storage,
    filled with [init]. *)
Theorem Tensor_fill_size_rank (init : T) dimensions w :
  installed w = true ->
  new_status (host w) = 0 ->
  Z.of_nat (length dimensions) <= MINT_MAX ->
  Forall (fun d => 0 < d) dimensions ->
  product dimensions <= MINT_MAX ->
  exists t w',
    Tensor_fill type init dimensions w = (Return t, w') /\
    size t = product dimensions /\
    rank t = Z.of_nat (length dimensions) /\
    dims (base t) = dimensions /\
    owner t = true /\
    exists obj, deref (internalMT t) (host w') = Some obj /\
                mt_data obj = replicate (Z.to_nat (product dimensions)) init.
Proof.
  intros Hon Hok Hlen Hpos Hfit. unfold Tensor_fill.
  rewrite (MArrayBase_ctor_valid dimensions w Hon Hlen Hpos Hfit).
  rewrite (createInternal_ok _ w Hok). simpl.
  eexists _, _. split; [reflexivity |].
  repeat split.
  eexists. split.
  - simpl. rewrite lookup_alter_eq, lookup_insert_eq. reflexivity.
  - apply write_all_cells. simpl.
    rewrite !length_replicate. f_equal. lia.
Qed.

(** C8: with a valid shape, a range whose length differs from the
    flattened length makes the filling constructor throw TensorNewError; a
    range of exactly that length is copied into the new storage, which the
    tensor then owns (LibraryLink initialised and, for success, the host
    allocating). *)
Theorem Tensor_range_spec (range : list T) dimensions w :
  installed w = true ->
  Z.of_nat (length dimensions) <= MINT_MAX ->
  Forall (fun d => 0 < d) dimensions ->
  product dimensions <= MINT_MAX ->
  (Z.of_nat (length range) <> product dimensions ->
     exists w', Tensor_range type range dimensions w = (Throw TensorNewError, w')) /\
  (Z.of_nat (length range) = product dimensions ->
   new_status (host w) = 0 ->
     exists t w',
       Tensor_range type range dimensions w = (Return t, w') /\
       size t = product dimensions /\
       owner t = true /\
       exists obj, deref (internalMT t) (host w') = Some obj /\
                   mt_data obj = range).
Proof.
  intros Hon Hlen Hpos Hfit. unfold Tensor_range.
  rewrite (MArrayBase_ctor_valid dimensions w Hon Hlen Hpos Hfit).
  split.
  - intros Hne.
    destruct (Z.eq_dec (new_status (host w)) 0) as [Hok | Hko].
    + rewrite (createInternal_ok _ w Hok). unfold size. simpl.
      destruct (Z.of_nat (length range) =? product dimensions) eqn:E.
      * apply Z.eqb_eq in E. contradiction.
      * simpl. eexists. reflexivity.
    + rewrite (createInternal_fails _ w Hko). eexists. reflexivity.
  - intros Heq Hok.
    rewrite (createInternal_ok _ w Hok). unfold size. simpl.
    rewrite (proj2 (Z.eqb_eq _ _) Heq). simpl.
    eexists _, _. split; [reflexivity |].
    repeat split.
    eexists. split.
    + simpl. rewrite lookup_alter_eq, lookup_insert_eq. reflexivity.
    + apply write_all_cells. simpl.
      rewrite length_replicate. lia.
Qed.

(** C9: a shape with a non-positive entry makes construction throw
    DimensionsError, before anything is allocated (LibraryLink
    initialised). *)
Theorem Tensor_nonpositive_dims (init : T) (range : list T) dimensions w :
  installed w = true ->
  Exists (fun d => d <= 0) dimensions ->
  MArrayBase_ctor dimensions w = Throw DimensionsError /\
  Tensor_fill type init dimensions w = (Throw DimensionsError, w) /\
  Tensor_range type range dimensions w = (Throw DimensionsError, w).
Proof.
  intros Hon Hbad.
  pose proof (MArrayBase_ctor_nonpositive dimensions w Hon Hbad) as Hctor.
  unfold Tensor_fill, Tensor_range. rewrite Hctor. auto.
Qed.

(** The range constructor on a length mismatch: the exception leaves with
    the tensor just allocated still in the host heap and no call to
    [MTensor_free]; the object under construction is not an owner, so its
    destructor would not free it either. *)
Lemma Tensor_range_mismatch (range : list T) dimensions w (b : MArrayBase) :
  MArrayBase_ctor dimensions w = Return b ->
  new_status (host w) = 0 ->
  Z.of_nat (length range) <> flattenedLength b ->
  let r := Tensor_range type range dimensions w in
  let leaked := Npos (new_address w) in
  fst r = Throw TensorNewError /\
  ~ live leaked w /\
  live leaked (snd r) /\
  freed (host (snd r)) = freed (host w) /\
  Tensor_dtor {| base := b; internalMT := leaked |} (snd r) = snd r.
Proof.
  intros Hctor Hok Hne. unfold Tensor_range. rewrite Hctor.
  rewrite (createInternal_ok _ w Hok). unfold size. simpl.
  destruct (Z.of_nat (length range) =? flattenedLength b) eqn:E.
  { apply Z.eqb_eq in E. contradiction. }
  simpl. repeat split.
  - unfold live. simpl. rewrite new_address_fresh. intros [? [=]].
  - unfold live. simpl. rewrite lookup_insert_eq. eexists. reflexivity.
  - unfold Tensor_dtor. simpl.
    rewrite (MArrayBase_ctor_not_owner _ _ _ Hctor). reflexivity.
Qed.

End ConstructionFacts.

(** ** Wrapping, moving, passing and destruction *)

Section LifetimeFacts.

Context {T : Type}.
Variable type : MType.

Implicit Types (w : @World T) (t : MTensor) (b : Tensor) (res : MArgument).

(** A wrapper that is not an owner is destroyed without any host call. *)
Lemma Tensor_dtor_not_owner b w : owner b = false -> Tensor_dtor b w = w.
Proof. unfold owner, Tensor_dtor. intros ->. reflexivity. Qed.

(** An owner's destructor hands its handle to [MTensor_free]. *)
Lemma Tensor_dtor_owner b w :
  owner b = true ->
  freed (host (Tensor_dtor b w)) = internalMT b :: freed (host w).
Proof. unfold owner, Tensor_dtor. intros ->. reflexivity. Qed.

(** C5: wrapping a handle the host knows (LibraryLink initialised).  A
    handle of another element type is refused with TensorTypeError; a
    handle of the wrapper's type is taken as it is, the world unchanged,
    with rank, dimensions and flattened length read from the handle and
    the ownership flag cleared. *)
Theorem Tensor_wrap_spec t (obj : st_MTensor) w :
  libData w = true ->
  deref t (host w) = Some obj ->
  (mt_type obj <> type ->
     Tensor_wrap type t w = (Throw TensorTypeError, w)) /\
  (mt_type obj = type ->
     exists b,
       Tensor_wrap type t w = (Return b, w) /\
       internalMT b = t /\
       rank b = mt_rank obj /\
       size b = mt_flattenedLength obj /\
       dims (base b) = take (Z.to_nat (mt_rank obj)) (mt_dims obj) /\
       (Z.of_nat (length (mt_dims obj)) = mt_rank obj ->
          dims (base b) = mt_dims obj) /\
       owner b = false /\
       Tensor_dtor b w = w).
Proof.
  intros Hlib Hobj. unfold Tensor_wrap. rewrite Hlib. simpl.
  unfold MTensor_getType, MTensor_getRank, MTensor_getFlattenedLength,
    MTensor_getDimensions. rewrite Hobj. simpl.
  split; intros Hty.
  - rewrite bool_decide_eq_false_2 by congruence. reflexivity.
  - rewrite bool_decide_eq_true_2 by congruence. simpl.
    eexists. split; [reflexivity |].
    repeat split.
    intros Hrk. simpl. apply take_ge. lia.
Qed.

(** C6, the part that holds: after [b2 = move(b1)] the source has a null
    handle and a cleared ownership flag, [b2] holds the handle of [b1]
    with the ownership status [b1] had, and destroying the source changes
    nothing in the host.  An owner of a handle stays an owner of a handle;
    a wrapper that was not an owner yields one that is not. *)
Theorem Tensor_move_spec b w :
  let b2 := fst (Tensor_move b) in
  let b1 := snd (Tensor_move b) in
  moved_from b1 /\
  internalMT b2 = internalMT b /\
  owner b2 = owner b /\
  base b2 = base b /\
  Tensor_dtor b1 w = w /\
  (owner_of_handle b -> owner_of_handle b2) /\
  (owner b = false -> owner b2 = false).
Proof.
  unfold Tensor_move, moved_from, owner_of_handle, owner, Tensor_dtor.
  simpl. repeat split; tauto.
Qed.

(** C7: [passAsResult] puts the handle in the output slot and clears the
    ownership flag, whatever the wrapper and the slot; destroying the
    wrapper afterwards leaves the host as it was. *)
Theorem passAsResult_spec b res w :
  let b' := fst (passAsResult b res) in
  snd (passAsResult b res) = MArg_MTensor (internalMT b) /\
  internalMT b' = internalMT b /\
  owner b' = false /\
  Tensor_dtor b' w = w.
Proof.
  unfold passAsResult, passInternal, owner, Tensor_dtor. simpl.
  repeat split.
Qed.

(** C2 as the code has it: without LibraryLink the constructors that take
    a shape throw FunctionError, from the constructor of [MArrayBase]; the
    wrapping constructor throws TensorInitError. *)
Theorem constructors_without_library w :
  (installed w = false ->
     forall (init : T) (range : list T) (dimensions : list Z),
       Tensor_fill type init dimensions w = (Throw FunctionError, w) /\
       Tensor_range type range dimensions w = (Throw FunctionError, w)) /\
  (libData w = false ->
     forall t, Tensor_wrap type t w = (Throw TensorInitError, w)).
Proof.
  split.
  - intros Hoff init range dimensions.
    unfold Tensor_fill, Tensor_range.
    rewrite (MArrayBase_ctor_not_installed dimensions w Hoff). auto.
  - intros Hoff t. unfold Tensor_wrap. rewrite Hoff. reflexivity.
Qed.

End LifetimeFacts.

(** ** Scenarios *)

(** C1: a range of three elements for the shape 2 x 2, LibraryLink
    initialised and the host allocating.  The constructor throws
    TensorNewError, and the tensor that [createInternal] allocated at
    address 1 is still in the host heap afterwards, with no call to
    [MTensor_free] recorded: the handle is lost. *)
Theorem Tensor_range_mismatch_leaks :
  fst Sample.mismatch_run = Throw TensorNewError /\
  ~ live 1%N Sample.world_on /\
  live 1%N (snd Sample.mismatch_run) /\
  freed (host (snd Sample.mismatch_run)) = [].
Proof.
  unfold Sample.mismatch_run.
  pose proof (Tensor_range_mismatch MType_Integer [1; 2; 3] [2; 2] Sample.world_on
                {| flattenedLength := 4; depth := 2; dims := [2; 2];
                   arrayOwnerQ := false |}) as H.
  destruct H as (Hthrow & Hbefore & Hafter & Hfreed & _).
  - reflexivity.
  - reflexivity.
  - simpl. lia.
  - repeat split; assumption.
Qed.

Lemma Tensor_fill_size_rank_witness :
  installed Sample.world_on = true /\
  new_status (host Sample.world_on) = 0 /\
  Z.of_nat (length [5]) <= MINT_MAX /\
  Forall (fun d => 0 < d) [5] /\
  product [5] <= MINT_MAX /\
  exists t w',
    Tensor_fill MType_Integer 7 [5] Sample.world_on = (Return t, w') /\
    size t = product [5] /\
    rank t = Z.of_nat (length [5]) /\
    dims (base t) = [5] /\
    owner t = true /\
    exists obj, deref (internalMT t) (host w') = Some obj /\
                mt_data obj = replicate (Z.to_nat (product [5])) 7.
Proof.
  assert (H1 : installed Sample.world_on = true) by reflexivity.
  assert (H2 : new_status (host Sample.world_on) = 0) by reflexivity.
  assert (H3 : Z.of_nat (length [5]) <= MINT_MAX) by (unfold MINT_MAX; simpl; lia).
  assert (H4 : Forall (fun d => 0 < d) [5]) by (repeat constructor; lia).
  assert (H5 : product [5] <= MINT_MAX) by (unfold MINT_MAX; simpl; lia).
  repeat (split; [assumption |]).
  exact (Tensor_fill_size_rank MType_Integer 7 [5] Sample.world_on H1 H2 H3 H4 H5).
Defined.

Lemma Tensor_range_spec_witness :
  installed Sample.world_on = true /\
  Z.of_nat (length [2; 2]) <= MINT_MAX /\
  Forall (fun d => 0 < d) [2; 2] /\
  product [2; 2] <= MINT_MAX /\
  Z.of_nat (length [1; 2; 3]) <> product [2; 2] /\
  Z.of_nat (length [1; 2; 3; 4]) = product [2; 2] /\
  new_status (host Sample.world_on) = 0 /\
  (exists w', Tensor_range MType_Integer [1; 2; 3] [2; 2] Sample.world_on
              = (Throw TensorNewError, w')) /\
  (exists t w',
     Tensor_range MType_Integer [1; 2; 3; 4] [2; 2] Sample.world_on = (Return t, w') /\
     size t = product [2; 2] /\
     owner t = true /\
     exists obj, deref (internalMT t) (host w') = Some obj /\
                 mt_data obj = [1; 2; 3; 4]).
Proof.
  assert (H1 : installed Sample.world_on = true) by reflexivity.
  assert (H2 : Z.of_nat (length [2; 2]) <= MINT_MAX) by (unfold MINT_MAX; simpl; lia).
  assert (H3 : Forall (fun d => 0 < d) [2; 2]) by (repeat constructor; lia).
  assert (H4 : product [2; 2] <= MINT_MAX) by (unfold MINT_MAX; simpl; lia).
  assert (H5 : Z.of_nat (length [1; 2; 3]) <> product [2; 2]) by (simpl; lia).
  assert (H6 : Z.of_nat (length [1; 2; 3; 4]) = product [2; 2]) by reflexivity.
  assert (H7 : new_status (host Sample.world_on) = 0) by reflexivity.
  repeat (split; [assumption |]).
  split.
  - exact (proj1 (Tensor_range_spec MType_Integer [1; 2; 3] [2; 2]
                    Sample.world_on H1 H2 H3 H4) H5).
  - exact (proj2 (Tensor_range_spec MType_Integer [1; 2; 3; 4] [2; 2]
                    Sample.world_on H1 H2 H3 H4) H6 H7).
Defined.

Lemma Tensor_nonpositive_dims_witness :
  installed Sample.world_on = true /\
  Exists (fun d => d <= 0) [3; 0; 2] /\
  MArrayBase_ctor [3; 0; 2] Sample.world_on = Throw DimensionsError /\
  Tensor_fill MType_Integer 7 [3; 0; 2] Sample.world_on
    = (Throw DimensionsError, Sample.world_on) /\
  Tensor_range MType_Integer [1; 2] [3; 0; 2] Sample.world_on
    = (Throw DimensionsError, Sample.world_on).
Proof.
  assert (H1 : installed Sample.world_on = true) by reflexivity.
  assert (H2 : Exists (fun d => d <= 0) [3; 0; 2]).
  { apply Exists_cons_tl, Exists_cons_hd. lia. }
  repeat (split; [assumption |]).
  exact (Tensor_nonpositive_dims MType_Integer 7 [1; 2] [3; 0; 2]
           Sample.world_on H1 H2).
Defined.

Lemma Tensor_wrap_spec_witness :
  libData Sample.world_arg = true /\
  deref 1%N (host Sample.world_arg) = Some Sample.kernel_tensor /\
  mt_type Sample.kernel_tensor <> MType_Real /\
  mt_type Sample.kernel_tensor = MType_Integer /\
  Tensor_wrap MType_Real 1%N Sample.world_arg = (Throw TensorTypeError, Sample.world_arg) /\
  exists b,
    Tensor_wrap MType_Integer 1%N Sample.world_arg = (Return b, Sample.world_arg) /\
    internalMT b = 1%N /\
    rank b = 2 /\
    size b = 6 /\
    dims (base b) = take (Z.to_nat 2) [2; 3] /\
    (Z.of_nat (length [2; 3]) = 2 -> dims (base b) = [2; 3]) /\
    owner b = false /\
    Tensor_dtor b Sample.world_arg = Sample.world_arg.
Proof.
  assert (H1 : libData Sample.world_arg = true) by reflexivity.
  assert (H2 : deref 1%N (host Sample.world_arg) = Some Sample.kernel_tensor)
    by reflexivity.
  assert (H3 : mt_type Sample.kernel_tensor <> MType_Real) by discriminate.
  assert (H4 : mt_type Sample.kernel_tensor = MType_Integer) by reflexivity.
  repeat (split; [assumption |]).
  split.
  - exact (proj1 (Tensor_wrap_spec MType_Real 1%N Sample.kernel_tensor
                    Sample.world_arg H1 H2) H3).
  - exact (proj2 (Tensor_wrap_spec MType_Integer 1%N Sample.kernel_tensor
                    Sample.world_arg H1 H2) H4).
Defined.

(** C2 as stated fails for the constructors that take a shape: without
    LibraryLink they throw FunctionError, which is not the initialisation
    error of the Tensor class. *)
Lemma Tensor_fill_without_library :
  installed Sample.world_off = false /\
  Tensor_fill MType_Integer 7 [2; 3] Sample.world_off
    = (Throw FunctionError, Sample.world_off) /\
  fst (Tensor_fill MType_Integer 7 [2; 3] Sample.world_off) <> Throw TensorInitError.
Proof.
  split; [reflexivity |]. split; [reflexivity |]. discriminate.
Qed.

Lemma constructors_without_library_witness :
  installed Sample.world_off = false /\
  libData Sample.world_off = false /\
  Tensor_fill MType_Integer 7 [2; 3] Sample.world_off
    = (Throw FunctionError, Sample.world_off) /\
  Tensor_range MType_Integer [1; 2] [2; 3] Sample.world_off
    = (Throw FunctionError, Sample.world_off) /\
  Tensor_wrap MType_Integer 1%N Sample.world_off
    = (Throw TensorInitError, Sample.world_off).
Proof.
  assert (H1 : installed Sample.world_off = false) by reflexivity.
  assert (H2 : libData Sample.world_off = false) by reflexivity.
  repeat (split; [assumption |]).
  pose proof (constructors_without_library MType_Integer Sample.world_off) as [Hshape Hwrap].
  split; [exact (proj1 (Hshape H1 7 [1; 2] [2; 3])) |].
  split; [exact (proj2 (Hshape H1 7 [1; 2] [2; 3])) |].
  exact (Hwrap H2 1%N).
Defined.

(** C6 as stated fails in its last clause: the wrapper of a kernel tensor
    holds a handle that is not null without being its owner, and so does
    the object move-constructed from it. *)
Lemma Tensor_move_of_wrapped_neither :
  exists b1,
    fst (Tensor_wrap MType_Integer 1%N Sample.world_arg) = Return b1 /\
    let b2 := fst (Tensor_move b1) in
    internalMT b2 = 1%N /\
    ~ (owner_of_handle b2 \/ moved_from b2).
Proof.
  eexists. split; [reflexivity |]. simpl. split; [reflexivity |].
  unfold owner_of_handle, moved_from, nullptr. simpl.
  intros [[H _] | [_ H]]; discriminate.
Qed.

Lemma Tensor_move_spec_witness :
  owner_of_handle Sample.owned_tensor /\
  moved_from (snd (Tensor_move Sample.owned_tensor)) /\
  owner_of_handle (fst (Tensor_move Sample.owned_tensor)) /\
  Tensor_dtor (snd (Tensor_move Sample.owned_tensor)) Sample.world_arg
    = Sample.world_arg.
Proof.
  assert (H1 : owner_of_handle Sample.owned_tensor)
    by (split; [reflexivity | discriminate]).
  pose proof (Tensor_move_spec Sample.owned_tensor Sample.world_arg)
    as (Hm & _ & _ & _ & Hd & Ho & _).
  split; [assumption |]. split; [exact Hm |]. split; [exact (Ho H1) | exact Hd].
Defined.

(** ** Runtime type dispatch *)

Section DispatchFacts.

Import MArgumentManager.

Context {R : Type}.
Variables RawArrayW TensorW ImageW : ElementT -> Type.
Variable getRawArrayType : nat -> Outcome rawarray_t.
Variable getRawArray : forall T : ElementT, nat -> Outcome (RawArrayW T).
Variable getTensorType : nat -> Outcome MType.
Variable getTensor : forall T : ElementT, nat -> Outcome (TensorW T).
Variable getImageType : nat -> Outcome imagedata_t.
Variable getImage : forall T : ElementT, nat -> Outcome (ImageW T).
Variable opRawArray : forall T : ElementT, RawArrayW T -> Outcome R.
Variable opTensor : forall T : ElementT, TensorW T -> Outcome R.
Variable opImage : forall T : ElementT, ImageW T -> Outcome R.

(** Every native element type is found again from its layout. *)
Lemma native_with_repr_of (T : ElementT) : native_with (repr_of T) = Some T.
Proof. destruct T as [[] | | | |]; reflexivity. Qed.

(** The mapping from tags to native element types, entry by entry. *)
Lemma rawarray_native_table (tag : rawarray_t) :
  rawarray_native tag =
    match tag with
    | MRawArray_Type_Undef => None
    | MRawArray_Type_Bit8 => Some (Integral int8_t)
    | MRawArray_Type_Ubit8 => Some (Integral uint8_t)
    | MRawArray_Type_Bit16 => Some (Integral int16_t)
    | MRawArray_Type_Ubit16 => Some (Integral uint16_t)
    | MRawArray_Type_Bit32 => Some (Integral int32_t)
    | MRawArray_Type_Ubit32 => Some (Integral uint32_t)
    | MRawArray_Type_Bit64 => Some (Integral int64_t)
    | MRawArray_Type_Ubit64 => Some (Integral uint64_t)
    | MRawArray_Type_Real32 => Some float_t
    | MRawArray_Type_Real64 => Some double_t
    | MRawArray_Type_Float_Complex => Some complex_float_t
    | MRawArray_Type_Double_Complex => Some complex_double_t
    end.
Proof. destruct tag; reflexivity. Qed.

Lemma tensor_native_table (tag : MType) :
  tensor_native tag =
    match tag with
    | MType_Integer => Some (Integral int64_t)
    | MType_Real => Some double_t
    | MType_Complex => Some complex_double_t
    | MType_Undef | MType_Boolean => None
    end.
Proof. destruct tag; reflexivity. Qed.

(** The supported RawArray tags are all tags but [Undef], and no two of
    them share a native type. *)
Lemma rawarray_native_supported (tag : rawarray_t) :
  rawarray_native tag = None <-> tag = MRawArray_Type_Undef.
Proof. rewrite rawarray_native_table. destruct tag; split; congruence. Qed.

Lemma rawarray_native_inj (tag1 tag2 : rawarray_t) (T : ElementT) :
  rawarray_native tag1 = Some T -> rawarray_native tag2 = Some T -> tag1 = tag2.
Proof.
  rewrite !rawarray_native_table.
  destruct tag1; try discriminate; intros [= <-];
    destruct tag2; try discriminate; reflexivity.
Qed.

Lemma tensor_native_supported (tag : MType) :
  tensor_native tag = None <-> tag = MType_Undef \/ tag = MType_Boolean.
Proof.
  rewrite tensor_native_table.
  destruct tag; split; intros H; try tauto; try discriminate;
    destruct H; discriminate.
Qed.

(** The type a tag is dispatched to has the layout the tag stands for. *)
Lemma rawarray_native_layout (tag : rawarray_t) (T : ElementT) :
  rawarray_native tag = Some T -> rawarray_repr tag = Some (repr_of T).
Proof.
  rewrite rawarray_native_table.
  destruct tag; try discriminate; intros [= <-]; reflexivity.
Qed.

Lemma tensor_native_layout (tag : MType) (T : ElementT) :
  tensor_native tag = Some T -> tensor_repr tag = Some (repr_of T).
Proof.
  rewrite tensor_native_table.
  destruct tag; try discriminate; intros [= <-]; reflexivity.
Qed.

Lemma image_native_table (tag : imagedata_t) :
  image_native tag =
    match tag with
    | MImage_Type_Undef => None
    | MImage_Type_Bit => Some (Integral int8_t)
    | MImage_Type_Bit8 => Some (Integral uint8_t)
    | MImage_Type_Bit16 => Some (Integral uint16_t)
    | MImage_Type_Real32 => Some float_t
    | MImage_Type_Real => Some double_t
    end.
Proof. destruct tag; reflexivity. Qed.

(** The supported Image tags are all tags but [Undef], and no two of them
    share a native type. *)
Lemma image_native_supported (tag : imagedata_t) :
  image_native tag = None <-> tag = MImage_Type_Undef.
Proof. rewrite image_native_table. destruct tag; split; congruence. Qed.

Lemma image_native_inj (tag1 tag2 : imagedata_t) (T : ElementT) :
  image_native tag1 = Some T -> image_native tag2 = Some T -> tag1 = tag2.
Proof.
  rewrite !image_native_table.
  destruct tag1; try discriminate; intros [= <-];
    destruct tag2; try discriminate; reflexivity.
Qed.

Lemma image_native_layout (tag : imagedata_t) (T : ElementT) :
  image_native tag = Some T -> image_repr tag = Some (repr_of T).
Proof.
  rewrite image_native_table.
  destruct tag; try discriminate; intros [= <-]; reflexivity.
Qed.

(** C3: for each of the three kinds of buffer argument (RawArray, Tensor,
    Image) the dispatch reads the tag and, for a supported tag, calls the
    operator instantiated at the native element type mapped from that tag;
    for any other tag it throws the error of the container kind
    (MArgumentRawArrayError, MArgumentTensorError, MArgumentImageError).
    No branch does anything else. *)
Theorem operateOn_dispatch (index : nat) :
  operateOnRawArray RawArrayW getRawArrayType getRawArray opRawArray index =
    bind (getRawArrayType index) (fun tag =>
      match rawarray_native tag with
      | Some T => bind (getRawArray T index) (opRawArray T)
      | None => Throw MArgumentRawArrayError
      end) /\
  operateOnTensor TensorW getTensorType getTensor opTensor index =
    bind (getTensorType index) (fun tag =>
      match tensor_native tag with
      | Some T => bind (getTensor T index) (opTensor T)
      | None => Throw MArgumentTensorError
      end) /\
  operateOnImage ImageW getImageType getImage opImage index =
    bind (getImageType index) (fun tag =>
      match image_native tag with
      | Some T => bind (getImage T index) (opImage T)
      | None => Throw MArgumentImageError
      end).
Proof.
  split; [| split].
  - unfold operateOnRawArray.
    destruct (getRawArrayType index) as [tag | e]; simpl; [| reflexivity].
    destruct tag; reflexivity.
  - unfold operateOnTensor.
    destruct (getTensorType index) as [tag | e]; simpl; [| reflexivity].
    destruct tag; reflexivity.
  - unfold operateOnImage.
    destruct (getImageType index) as [tag | e]; simpl; [| reflexivity].
    destruct tag; reflexivity.
Qed.

(** The scenario of the specification: an unsigned 8-bit RawArray is
    handled by the operator instantiated for [uint8_t]. *)
Lemma operateOnRawArray_Ubit8 (index : nat) :
  getRawArrayType index = Return MRawArray_Type_Ubit8 ->
  operateOnRawArray RawArrayW getRawArrayType getRawArray opRawArray index =
    bind (getRawArray (Integral uint8_t) index) (opRawArray (Integral uint8_t)).
Proof. unfold operateOnRawArray. intros ->. reflexivity. Qed.

(** Images: an unsupported tag is refused as well. *)
Lemma operateOnImage_Undef (index : nat) :
  getImageType index = Return MImage_Type_Undef ->
  operateOnImage ImageW getImageType getImage opImage index =
    Throw MArgumentImageError.
Proof. unfold operateOnImage. intros ->. reflexivity. Qed.

End DispatchFacts.

(** * Further properties of the containers *)

Section ContainerExtras.

Context {T : Type}.
Variable type : MType.

Implicit Types (w : @World T) (t : Tensor) (dimensions : list Z).

Lemma with_host_same w : with_host w (host w) = w.
Proof. destruct w. reflexivity. Qed.

Lemma dimOk_iff (d : Z) : dimOk d = true <-> 0 < d <= MINT_MAX.
Proof.
  unfold dimOk. rewrite andb_true_iff, Z.ltb_lt, Z.leb_le. tauto.
Qed.

Lemma forallb_dimOk_iff dimensions :
  forallb dimOk dimensions = true <-> Forall (fun d => 0 < d <= MINT_MAX) dimensions.
Proof.
  rewrite forallb_forall, List.Forall_forall.
  split; intros H d Hd; apply dimOk_iff, H, Hd.
Qed.

Lemma map_to_mint_in_range dimensions :
  Forall (fun d => 0 < d <= MINT_MAX) dimensions -> map to_mint dimensions = dimensions.
Proof.
  induction 1 as [| d ds Hd _ IH]; simpl; [reflexivity |].
  rewrite IH, to_mint_small; [reflexivity |]. unfold MINT_MIN, MINT_MAX in *. lia.
Qed.

(** What a returning base constructor tells about its arguments. *)
Lemma MArrayBase_ctor_inv dimensions w (b : MArrayBase) :
  MArrayBase_ctor dimensions w = Return b ->
  installed w = true /\
  Z.of_nat (length dimensions) <= MINT_MAX /\
  Forall (fun d => 0 < d <= MINT_MAX) dimensions /\
  b = base_of_shape dimensions.
Proof.
  unfold MArrayBase_ctor. destruct (installed w) eqn:Hon.
  2:{ rewrite (installed_false w Hon). discriminate. }
  rewrite (installed_true w Hon). unfold checkContainerSize.
  destruct (MINT_MAX <? Z.of_nat (length dimensions)) eqn:Hlen; simpl; [discriminate |].
  apply Z.ltb_ge in Hlen.
  destruct (forallb dimOk dimensions) eqn:Hok; simpl; [| discriminate].
  apply forallb_dimOk_iff in Hok.
  rewrite (map_to_mint_in_range _ Hok), to_mint_small
    by (unfold MINT_MIN, MINT_MAX in *; lia).
  intros [= <-]. auto.
Qed.

(** The errors of the base constructor, in the order of its tests. *)
Lemma MArrayBase_ctor_throws dimensions w (e : LLErrorCode) :
  MArrayBase_ctor dimensions w = Throw e ->
  (installed w = false /\ e = FunctionError) \/
  (installed w = true /\ e = DimensionsError).
Proof.
  unfold MArrayBase_ctor. destruct (installed w) eqn:Hon.
  - rewrite (installed_true w Hon). unfold checkContainerSize.
    destruct (MINT_MAX <? Z.of_nat (length dimensions)); simpl.
    + intros [= <-]. auto.
    + destruct (forallb dimOk dimensions); simpl; [discriminate |].
      intros [= <-]. auto.
  - rewrite (installed_false w Hon). simpl. intros [= <-]. auto.
Qed.

Lemma MArrayBase_ctor_accepts dimensions w :
  installed w = true ->
  Z.of_nat (length dimensions) <= MINT_MAX ->
  Forall (fun d => 0 < d <= MINT_MAX) dimensions ->
  MArrayBase_ctor dimensions w = Return (base_of_shape dimensions).
Proof.
  intros Hon Hlen Hok. unfold MArrayBase_ctor.
  rewrite (installed_true w Hon), (checkContainerSize_fits _ _ Hlen). simpl.
  rewrite (proj2 (forallb_dimOk_iff _) Hok). simpl.
  rewrite (map_to_mint_in_range _ Hok). reflexivity.
Qed.

(** X1: the base constructor returns exactly when LibraryLink is
    initialised, the container is no longer than [MINT_MAX] and every entry
    lies in [1, MINT_MAX]; the object then records the entries as given,
    their number as rank, and is not an owner. *)
Theorem MArrayBase_ctor_returns_iff dimensions w (b : MArrayBase) :
  MArrayBase_ctor dimensions w = Return b <->
  installed w = true /\
  Z.of_nat (length dimensions) <= MINT_MAX /\
  Forall (fun d => 0 < d <= MINT_MAX) dimensions /\
  b = base_of_shape dimensions.
Proof.
  split; [apply MArrayBase_ctor_inv |].
  intros (Hon & Hlen & Hok & ->).
  apply MArrayBase_ctor_accepts; assumption.
Qed.

Lemma Tensor_fill_inv (init : T) dimensions w t w' :
  Tensor_fill type init dimensions w = (Return t, w') ->
  exists b,
    MArrayBase_ctor dimensions w = Return b /\
    new_status (host w) = 0 /\
    t = owned_at w b /\
    w' = world_with_new type w (flattenedLength b)
           (replicate (Z.to_nat (flattenedLength b)) init).
Proof.
  unfold Tensor_fill.
  destruct (MArrayBase_ctor dimensions w) as [b | e] eqn:Hctor; [| discriminate].
  destruct (Z.eq_dec (new_status (host w)) 0) as [Hok | Hko].
  - rewrite (createInternal_ok _ _ w Hok). simpl.
    intros [= <- <-]. exists b. repeat split; try assumption.
    unfold world_with_new, write_from_begin, store_data, with_host. simpl.
    rewrite alter_insert_eq. reflexivity.
  - rewrite (createInternal_fails _ _ w Hko). discriminate.
Qed.

Lemma Tensor_range_inv (range : list T) dimensions w t w' :
  Tensor_range type range dimensions w = (Return t, w') ->
  exists b,
    MArrayBase_ctor dimensions w = Return b /\
    new_status (host w) = 0 /\
    Z.of_nat (length range) = flattenedLength b /\
    t = owned_at w b /\
    w' = world_with_new type w (flattenedLength b) range.
Proof.
  unfold Tensor_range.
  destruct (MArrayBase_ctor dimensions w) as [b | e] eqn:Hctor; [| discriminate].
  destruct (Z.eq_dec (new_status (host w)) 0) as [Hok | Hko].
  - rewrite (createInternal_ok _ _ w Hok). unfold size. simpl.
    destruct (Z.of_nat (length range) =? flattenedLength b) eqn:E; simpl; [| discriminate].
    apply Z.eqb_eq in E.
    intros [= <- <-]. exists b. repeat split; try assumption.
    unfold world_with_new, write_from_begin, store_data, with_host. simpl.
    rewrite alter_insert_eq. reflexivity.
  - rewrite (createInternal_fails _ _ w Hko). discriminate.
Qed.

(** The tensor [world_with_new] holds at the fresh address. *)
Lemma world_with_new_deref w (len : mint) (vals : list T) :
  deref (Npos (new_address w)) (host (world_with_new type w len vals)) =
    Some (write_cells vals (new_tensor type w len)).
Proof. unfold world_with_new. simpl. apply lookup_insert_eq. Qed.

Lemma world_with_new_data w (len : mint) (vals : list T) :
  Z.of_nat (length vals) = len ->
  mt_data (write_cells vals (new_tensor type w len)) = vals.
Proof.
  intros Hlen. apply write_all_cells. simpl. rewrite length_replicate. lia.
Qed.

(** X2: [Tensor(T init, dims)] is exception safe.  Whenever it throws, the
    world is the one it started from, and the error is FunctionError
    (LibraryLink not initialised), DimensionsError (shape refused) or
    TensorNewError (the host did not allocate). *)
Theorem Tensor_fill_exception_safe (init : T) dimensions w (e : LLErrorCode) w' :
  Tensor_fill type init dimensions w = (Throw e, w') ->
  w' = w /\
  ((installed w = false /\ e = FunctionError) \/
   (installed w = true /\ e = DimensionsError) \/
   (installed w = true /\ new_status (host w) <> 0 /\ e = TensorNewError)).
Proof.
  unfold Tensor_fill.
  destruct (MArrayBase_ctor dimensions w) as [b | e0] eqn:Hctor.
  - apply MArrayBase_ctor_inv in Hctor as (Hon & _).
    destruct (Z.eq_dec (new_status (host w)) 0) as [Hok | Hko].
    + rewrite (createInternal_ok _ _ w Hok). discriminate.
    + rewrite (createInternal_fails _ _ w Hko). intros [= <- <-].
      split; [reflexivity |]. right; right. auto.
  - intros [= <- <-]. split; [reflexivity |].
    destruct (MArrayBase_ctor_throws _ _ _ Hctor) as [? | ?]; auto.
Qed.

(** X3: the range constructor changes the world on a throwing path only
    when the length test fails after a successful allocation; every other
    throw leaves the world as it was. *)
Theorem Tensor_range_throw_cases (range : list T) dimensions w (e : LLErrorCode) w' :
  Tensor_range type range dimensions w = (Throw e, w') ->
  (w' = w /\
   ((installed w = false /\ e = FunctionError) \/
    (installed w = true /\ e = DimensionsError) \/
    (installed w = true /\ new_status (host w) <> 0 /\ e = TensorNewError))) \/
  (e = TensorNewError /\
   new_status (host w) = 0 /\
   Z.of_nat (length range) <> totalLengthFromDims dimensions /\
   w' <> w /\
   live (Npos (new_address w)) w' /\
   freed (host w') = freed (host w)).
Proof.
  unfold Tensor_range.
  destruct (MArrayBase_ctor dimensions w) as [b | e0] eqn:Hctor.
  - apply MArrayBase_ctor_inv in Hctor as (Hon & _ & _ & ->).
    destruct (Z.eq_dec (new_status (host w)) 0) as [Hok | Hko].
    + rewrite (createInternal_ok _ _ w Hok). unfold size. simpl.
      destruct (Z.of_nat (length range) =? totalLengthFromDims dimensions) eqn:E;
        simpl; [discriminate |].
      apply Z.eqb_neq in E. intros [= <- <-]. right.
      repeat split; try assumption.
      * intros Heq.
        apply (f_equal (fun v => heap (host v) !! new_address w)) in Heq.
        simpl in Heq. rewrite lookup_insert_eq, new_address_fresh in Heq.
        discriminate.
      * unfold live. simpl. rewrite lookup_insert_eq. eexists. reflexivity.
    + rewrite (createInternal_fails _ _ w Hko). intros [= <- <-]. left.
      split; [reflexivity |]. right; right. auto.
  - intros [= <- <-]. left. split; [reflexivity |].
    destruct (MArrayBase_ctor_throws _ _ _ Hctor) as [? | ?]; auto.
Qed.

(** Destroying the owner of the tensor just allocated gives the heap back
    and records one call to [MTensor_free]. *)
Lemma Tensor_dtor_owned_at w (b : MArrayBase) (len : mint) (vals : list T) :
  Tensor_dtor (owned_at w b) (world_with_new type w len vals) =
  with_host w
    {| heap := heap (host w);
       freed := Npos (new_address w) :: freed (host w);
       new_status := new_status (host w); new_cell := new_cell (host w) |}.
Proof.
  unfold Tensor_dtor, owned_at, world_with_new, freeInternal, MTensor_free, with_host.
  simpl. rewrite delete_insert_id by apply new_address_fresh. reflexivity.
Qed.

(** X4: construction followed by destruction.  If either shape constructor
    returns a tensor, destroying that tensor restores the host heap exactly
    and calls [MTensor_free] once, on the tensor's handle. *)
Theorem construct_destroy (init : T) (range : list T) dimensions w t w' :
  Tensor_fill type init dimensions w = (Return t, w') \/
  Tensor_range type range dimensions w = (Return t, w') ->
  heap (host (Tensor_dtor t w')) = heap (host w) /\
  freed (host (Tensor_dtor t w')) = internalMT t :: freed (host w) /\
  ~ live (internalMT t) (Tensor_dtor t w').
Proof.
  assert (Hgone : forall (b : MArrayBase) len vals,
    ~ live (Npos (new_address w))
        (Tensor_dtor (owned_at w b) (world_with_new type w len vals))).
  { intros b len vals. rewrite Tensor_dtor_owned_at. unfold live. simpl.
    rewrite new_address_fresh. intros [? [=]]. }
  intros [H | H].
  - apply Tensor_fill_inv in H as (b & _ & _ & -> & ->).
    split; [| split; [| apply Hgone]]; rewrite Tensor_dtor_owned_at; reflexivity.
  - apply Tensor_range_inv in H as (b & _ & _ & _ & -> & ->).
    split; [| split; [| apply Hgone]]; rewrite Tensor_dtor_owned_at; reflexivity.
Qed.

(** X5: no double release through a move.  After [b2 = move(t)], destroying
    the two objects in either order gives the same world: for a constructed
    tensor the heap is restored and [MTensor_free] is called exactly once. *)
Theorem move_destroy_once (init : T) dimensions w t w' :
  Tensor_fill type init dimensions w = (Return t, w') ->
  let b2 := fst (Tensor_move t) in
  let b1 := snd (Tensor_move t) in
  Tensor_dtor b2 (Tensor_dtor b1 w') = Tensor_dtor b1 (Tensor_dtor b2 w') /\
  heap (host (Tensor_dtor b2 (Tensor_dtor b1 w'))) = heap (host w) /\
  freed (host (Tensor_dtor b2 (Tensor_dtor b1 w'))) = internalMT t :: freed (host w).
Proof.
  intros H. apply Tensor_fill_inv in H as (b & _ & _ & -> & ->).
  assert (Hb2 : fst (Tensor_move (owned_at w b)) = owned_at w b) by reflexivity.
  assert (Hb1 : forall v : @World T,
             Tensor_dtor (snd (Tensor_move (owned_at w b))) v = v) by reflexivity.
  cbv zeta. rewrite !Hb1, Hb2, Tensor_dtor_owned_at. auto.
Qed.

(** X6: a tensor that went to the host comes back flat.  [createInternal]
    allocates a tensor of rank 1, so wrapping the handle of a constructed
    tensor gives a wrapper of rank 1 whose only dimension is the size; the
    shape given to the constructor survives only when it had one entry. *)
Theorem construct_wrap_flat (init : T) dimensions w t w' :
  Tensor_fill type init dimensions w = (Return t, w') ->
  exists b,
    Tensor_wrap type (internalMT t) w' = (Return b, w') /\
    rank b = 1 /\
    dims (base b) = [size t] /\
    size b = size t /\
    owner b = false /\
    (length dimensions <> 1%nat -> dims (base b) <> dims (base t)).
Proof.
  intros H. apply Tensor_fill_inv in H as (b & Hctor & _ & -> & ->).
  apply MArrayBase_ctor_inv in Hctor as (Hon & _ & _ & ->).
  assert (Hlib : libData w = true).
  { unfold installed in Hon. destruct (libData w); [reflexivity | discriminate]. }
  unfold Tensor_wrap, MTensor_getType, MTensor_getRank,
    MTensor_getFlattenedLength, MTensor_getDimensions.
  unfold owned_at at 1 2 3 4 5. cbn [internalMT].
  rewrite world_with_new_deref. simpl. rewrite Hlib. simpl.
  rewrite bool_decide_eq_true_2 by reflexivity. simpl.
  eexists. split; [reflexivity |].
  unfold rank, size, owner. simpl. rewrite ?lookup_insert_eq. simpl.
  split; [reflexivity |]. split; [reflexivity |]. split; [lia |].
  split; [reflexivity |].
  intros Hlen Heq. apply Hlen. rewrite <- Heq. reflexivity.
Qed.

(** X7: the recorded rank is the number of recorded dimensions for every
    tensor a constructor returns (for a wrapper, when the host object has as
    many dimensions as its rank), and a move keeps it so for both objects. *)
Theorem shape_ok_kept :
  (forall (init : T) dimensions w t w',
      Tensor_fill type init dimensions w = (Return t, w') -> shape_ok t) /\
  (forall (range : list T) dimensions w t w',
      Tensor_range type range dimensions w = (Return t, w') -> shape_ok t) /\
  (forall (h : MTensor) (obj : st_MTensor) w t w',
      deref h (host w) = Some obj -> host_ok obj ->
      Tensor_wrap type h w = (Return t, w') -> shape_ok t) /\
  (forall t, shape_ok t ->
      shape_ok (fst (Tensor_move t)) /\ shape_ok (snd (Tensor_move t))).
Proof.
  split; [| split; [| split]].
  - intros init dimensions w t w' H.
    apply Tensor_fill_inv in H as (b & Hctor & _ & -> & _).
    apply MArrayBase_ctor_inv in Hctor as (_ & _ & _ & ->). reflexivity.
  - intros range dimensions w t w' H.
    apply Tensor_range_inv in H as (b & Hctor & _ & _ & -> & _).
    apply MArrayBase_ctor_inv in Hctor as (_ & _ & _ & ->). reflexivity.
  - intros h obj w t w' Hobj Hok. unfold Tensor_wrap.
    destruct (libData w); simpl; [| discriminate].
    destruct (bool_decide (type = MTensor_getType h (host w))); simpl; [| discriminate].
    intros [= <- _]. unfold shape_ok, MTensor_getRank, MTensor_getDimensions.
    rewrite Hobj. simpl. red in Hok. rewrite Hok, Nat2Z.id, firstn_all. reflexivity.
  - intros t Ht. split; exact Ht.
Qed.

(** X8: [dimension(dim)] on a tensor whose rank is the number of its
    dimensions: an index in [0, rank) gives the entry at that position of
    the dimension list, any other index throws TensorIndexError. *)
Theorem dimension_spec t (dim : mint) :
  shape_ok t ->
  (0 <= dim < rank t ->
     exists d, dims (base t) !! Z.to_nat dim = Some d /\ dimension t dim = Return d) /\
  (dim < 0 \/ rank t <= dim -> dimension t dim = Throw TensorIndexError).
Proof.
  unfold shape_ok, dimension, rank. intros Hshape. split.
  - intros [Hlo Hhi].
    destruct (depth (base t) <=? dim) eqn:E1; [apply Z.leb_le in E1; lia |].
    destruct (dim <? 0) eqn:E2; [apply Z.ltb_lt in E2; lia |]. simpl.
    destruct (lookup_lt_is_Some_2 (dims (base t)) (Z.to_nat dim)) as [d Hd]; [lia |].
    exists d. split; [exact Hd |]. f_equal. apply (nth_lookup_Some _ _ _ _ Hd).
  - intros [Hneg | Hbig].
    + replace (dim <? 0) with true by (symmetry; apply Z.ltb_lt; lia).
      rewrite orb_true_r. reflexivity.
    + replace (depth (base t) <=? dim) with true by (symmetry; apply Z.leb_le; lia).
      reflexivity.
Qed.

End ContainerExtras.

(** * The error manager *)

Module ErrorManagerFacts.
Import ErrorManager.

Implicit Types (m : gmap string LibraryLinkError) (st : State)
  (l : list ErrorStringData) (k : string) (e : LibraryLinkError).

Lemma wrap_int_small (z : Z) : in_int z -> wrap_int z = z.
Proof.
  unfold in_int, wrap_int, INT_MIN, INT_MAX. intros Hz.
  rewrite Z.mod_small; lia.
Qed.

(** Decrementing and incrementing again gives the counter back, also at the
    lower end of [int]. *)
Lemma wrap_int_back (z : Z) : in_int z -> wrap_int (wrap_int (z - 1) + 1) = z.
Proof.
  unfold in_int, INT_MIN, INT_MAX. intros Hz.
  destruct (Z.eq_dec z (- 2 ^ 31)) as [-> | Hne]; [reflexivity |].
  rewrite (wrap_int_small (z - 1)) by (unfold in_int, INT_MIN, INT_MAX; lia).
  replace (z - 1 + 1) with z by lia.
  apply wrap_int_small. unfold in_int, INT_MIN, INT_MAX. lia.
Qed.

Lemma register_step_fst m (nx : Z) (err : ErrorStringData) :
  fst (register_step (m, nx) err) =
    match m !! fst err with
    | Some _ => m
    | None => <[fst err := {| err_id := nx; err_name := fst err;
                              err_message := snd err |}]> m
    end.
Proof.
  unfold register_step, emplace. simpl. destruct (m !! fst err); reflexivity.
Qed.

Lemma register_step_snd m (nx : Z) (err : ErrorStringData) :
  snd (register_step (m, nx) err) = wrap_int (nx - 1).
Proof.
  unfold register_step, emplace. simpl. destruct (m !! fst err); reflexivity.
Qed.

Lemma register_step_eta (acc : gmap string LibraryLinkError * Z) (err : ErrorStringData) :
  register_step acc err =
    (fst (register_step (fst acc, snd acc) err), wrap_int (snd acc - 1)).
Proof.
  destruct acc as [m nx]. unfold register_step, emplace. simpl.
  destruct (m !! fst err); reflexivity.
Qed.

(** The loop from any map and counter: how far the counter moves. *)
Lemma fold_register_snd l m (nx : Z) :
  in_int nx -> INT_MIN <= nx - Z.of_nat (length l) ->
  snd (fold_left register_step l (m, nx)) = nx - Z.of_nat (length l).
Proof.
  revert m nx. induction l as [| err l IH]; intros m nx Hnx Hroom; simpl.
  - lia.
  - rewrite register_step_eta. simpl fst. simpl snd.
    assert (Hstep : wrap_int (nx - 1) = nx - 1).
    { apply wrap_int_small. unfold in_int, INT_MIN, INT_MAX in *.
      simpl length in Hroom. lia. }
    rewrite Hstep, IH.
    + simpl length. lia.
    + unfold in_int, INT_MIN, INT_MAX in *. simpl length in Hroom. lia.
    + simpl length in Hroom. lia.
Qed.

(** An element, once in the map, stays as it is. *)
Lemma fold_register_keeps l m (nx : Z) k e :
  m !! k = Some e ->
  fst (fold_left register_step l (m, nx)) !! k = Some e.
Proof.
  revert m nx. induction l as [| err l IH]; intros m nx Hk; simpl; [exact Hk |].
  rewrite register_step_eta. apply IH. simpl fst. simpl snd.
  rewrite register_step_fst.
  destruct (m !! fst err) eqn:E; [exact Hk |].
  rewrite lookup_insert_ne; [exact Hk |]. intros <-. congruence.
Qed.

(** A name that is not in the list is not added. *)
Lemma fold_register_other l m (nx : Z) k :
  m !! k = None -> ~ In k (map fst l) ->
  fst (fold_left register_step l (m, nx)) !! k = None.
Proof.
  revert m nx. induction l as [| err l IH]; intros m nx Hk Hnot; simpl; [exact Hk |].
  rewrite register_step_eta. apply IH.
  - simpl fst. simpl snd. rewrite register_step_fst.
    destruct (m !! fst err); [exact Hk |].
    rewrite lookup_insert_ne; [exact Hk |]. intros <-. apply Hnot. left. reflexivity.
  - intros Hin. apply Hnot. right. exact Hin.
Qed.

(** X9: [registerLLUErrors] takes one id per entry of the list, also for an
    entry whose name was already registered: the counter ends [length l]
    below where it started. *)
Theorem registerLLUErrors_counter l (next : Z) :
  in_int next -> INT_MIN <= next - Z.of_nat (length l) ->
  snd (registerLLUErrors l next) = next - Z.of_nat (length l).
Proof.
  intros Hnext Hroom. unfold registerLLUErrors.
  apply fold_register_snd; assumption.
Qed.

(** X10: what [registerLLUErrors] registers.  The first entry with a given
    name is registered under that name, with its message and with the id
    [next] minus its position in the list; later entries with the same name
    are dropped; a name that does not occur is not registered. *)
Theorem registerLLUErrors_lookup l (next : Z) :
  in_int next -> INT_MIN <= next - Z.of_nat (length l) ->
  (forall l1 k msg l2,
      l = l1 ++ (k, msg) :: l2 -> ~ In k (map fst l1) ->
      fst (registerLLUErrors l next) !! k =
        Some {| err_id := next - Z.of_nat (length l1); err_name := k;
                err_message := msg |}) /\
  (forall k, ~ In k (map fst l) -> fst (registerLLUErrors l next) !! k = None).
Proof.
  intros Hnext Hroom. unfold registerLLUErrors. split.
  - intros l1 k msg l2 -> Hfirst.
    rewrite length_app in Hroom. simpl length in Hroom.
    rewrite fold_left_app. simpl.
    destruct (fold_left register_step l1 (empty, next)) as [m1 n1] eqn:E1.
    assert (Hn1 : n1 = next - Z.of_nat (length l1)).
    { change n1 with (snd (m1, n1)). rewrite <- E1.
      apply fold_register_snd; [assumption | lia]. }
    assert (Hm1 : m1 !! k = None).
    { change m1 with (fst (m1, n1)). rewrite <- E1.
      apply fold_register_other; [apply lookup_empty | assumption]. }
    rewrite register_step_eta. apply fold_register_keeps.
    simpl fst. simpl snd. rewrite register_step_fst. simpl fst. simpl snd.
    rewrite Hm1, lookup_insert_eq, Hn1. reflexivity.
  - intros k Hnot. apply fold_register_other; [apply lookup_empty | assumption].
Qed.

(** ** Consistency of the registry *)

Lemma consistent_insert st k (msg : string) :
  consistent st -> errors st !! k = None ->
  consistent
    {| errors := <[k := {| err_id := nextErrorId st; err_name := k;
                           err_message := msg |}]> (errors st);
       nextErrorId := nextErrorId st - 1 |}.
Proof.
  intros [Hname Huniq] Hk. split; simpl.
  - intros k0 e Hl. apply lookup_insert_Some in Hl as [[<- <-] | [Hne Hl]].
    + simpl. split; [reflexivity | lia].
    + destruct (Hname _ _ Hl). split; [assumption | lia].
  - intros k1 k2 e1 e2 H1 H2 Hid.
    apply lookup_insert_Some in H1 as [[<- <-] | [Hne1 H1]];
      apply lookup_insert_Some in H2 as [[<- <-] | [Hne2 H2]].
    + reflexivity.
    + simpl in Hid. destruct (Hname _ _ H2). lia.
    + simpl in Hid. destruct (Hname _ _ H1). lia.
    + exact (Huniq _ _ _ _ H1 H2 Hid).
Qed.

Lemma consistent_lower st (n : Z) :
  consistent st -> n <= nextErrorId st ->
  consistent {| errors := errors st; nextErrorId := n |}.
Proof.
  intros [Hname Huniq] Hn. split; simpl.
  - intros k e Hl. destruct (Hname _ _ Hl). split; [assumption | lia].
  - exact Huniq.
Qed.

Lemma fold_register_consistent l m (nx : Z) :
  consistent {| errors := m; nextErrorId := nx |} ->
  in_int nx -> INT_MIN <= nx - Z.of_nat (length l) ->
  consistent {| errors := fst (fold_left register_step l (m, nx));
                nextErrorId := snd (fold_left register_step l (m, nx)) |}.
Proof.
  revert m nx. induction l as [| err l IH]; intros m nx Hc Hnx Hroom; simpl.
  - exact Hc.
  - simpl length in Hroom. rewrite register_step_eta. simpl fst. simpl snd.
    assert (Hstep : wrap_int (nx - 1) = nx - 1).
    { apply wrap_int_small. unfold in_int, INT_MIN, INT_MAX in *. lia. }
    rewrite Hstep. apply IH.
    + rewrite register_step_fst. destruct (m !! fst err) eqn:E.
      * apply (consistent_lower {| errors := m; nextErrorId := nx |}); [exact Hc |].
        simpl. lia.
      * exact (consistent_insert {| errors := m; nextErrorId := nx |}
                 (fst err) (snd err) Hc E).
    + unfold in_int, INT_MIN, INT_MAX in *. lia.
    + lia.
Qed.

(** X11: after [errors()] has been initialised from any list, every
    element sits under its own name, no two elements share an id, and every
    id handed out lies above the counter. *)
Theorem initial_consistent l (start : Z) :
  in_int start -> INT_MIN <= start - Z.of_nat (length l) ->
  consistent (initial l start) /\
  nextErrorId (initial l start) = start - Z.of_nat (length l) /\
  (forall k, In k (map fst l) <-> is_Some (errors (initial l start) !! k)).
Proof.
  intros Hstart Hroom. unfold initial, registerLLUErrors. simpl.
  split; [| split].
  - apply fold_register_consistent; try assumption.
    split; simpl; intros *; rewrite lookup_empty; discriminate.
  - apply fold_register_snd; assumption.
  - intros k. split.
    + intros Hin. apply in_map_iff in Hin as ([k0 msg] & <- & Hin).
      clear Hroom. revert Hin. generalize (empty : gmap string LibraryLinkError).
      generalize start. clear Hstart.
      induction l as [| err l IH]; intros nx m Hin; [destruct Hin |].
      simpl. rewrite register_step_eta. simpl fst at 2. simpl snd.
      destruct Hin as [-> | Hin]; [| apply IH; exact Hin].
      rewrite register_step_fst. simpl fst.
      destruct (m !! k0) eqn:E.
      * eexists. apply fold_register_keeps. exact E.
      * eexists. apply fold_register_keeps. apply lookup_insert_eq.
    + intros [e He]. destruct (in_dec String.string_dec k (map fst l)) as [Hin | Hnot];
        [exact Hin |].
      rewrite (fold_register_other l empty start k (lookup_empty _) Hnot) in He.
      discriminate.
Qed.

(** ** [set] *)

Lemma set_fresh_eq (d : ErrorStringData) st :
  errors st !! fst d = None ->
  set d st =
    (Ok tt,
     {| errors := <[fst d := {| err_id := nextErrorId st; err_name := fst d;
                                err_message := snd d |}]> (errors st);
        nextErrorId := wrap_int (nextErrorId st - 1) |}).
Proof. intros Hk. unfold set, emplace. rewrite Hk. reflexivity. Qed.

Lemma set_existing_eq (d : ErrorStringData) st (old : LibraryLinkError) :
  errors st !! fst d = Some old -> in_int (nextErrorId st) ->
  set d st =
    (if bool_decide (err_message old = snd d) then Ok tt
     else throw_registered "ErrorManagerCreateNameError" st, st).
Proof.
  intros Hk Hn. unfold set, emplace. rewrite Hk. simpl.
  rewrite (wrap_int_back _ Hn).
  destruct st as [m n]. simpl in *.
  destruct (bool_decide (err_message old = snd d)); reflexivity.
Qed.

(** X12: registering a new name.  [set] returns, the name is registered
    with the id the counter showed, the counter goes down by one, every
    other element is untouched, and [findError] by name gives the new
    element back. *)
Theorem set_fresh k (msg : string) st :
  errors st !! k = None ->
  in_int (nextErrorId st) -> INT_MIN < nextErrorId st ->
  let e := {| err_id := nextErrorId st; err_name := k; err_message := msg |} in
  fst (set (k, msg) st) = Ok tt /\
  errors (snd (set (k, msg) st)) = <[k := e]> (errors st) /\
  nextErrorId (snd (set (k, msg) st)) = nextErrorId st - 1 /\
  findError_name k (snd (set (k, msg) st)) = Ok e.
Proof.
  intros Hk Hn Hroom e. rewrite (set_fresh_eq (k, msg) st Hk). simpl.
  split; [reflexivity |]. split; [reflexivity |]. split.
  - apply wrap_int_small. unfold in_int, INT_MIN, INT_MAX in *. lia.
  - unfold findError_name. simpl. rewrite lookup_insert_eq. reflexivity.
Qed.

(** X13: registering a name that is already there changes nothing, neither
    the map nor the counter.  With the message already registered [set]
    returns; with another message it throws the registered
    ErrorManagerCreateNameError and the first message stays. *)
Theorem set_existing k (msg : string) st (old : LibraryLinkError) :
  errors st !! k = Some old ->
  in_int (nextErrorId st) ->
  snd (set (k, msg) st) = st /\
  (err_message old = msg -> fst (set (k, msg) st) = Ok tt) /\
  (err_message old <> msg ->
     fst (set (k, msg) st) = throw_registered "ErrorManagerCreateNameError" st).
Proof.
  intros Hk Hn. rewrite (set_existing_eq (k, msg) st old Hk Hn). simpl.
  split; [reflexivity |]. split; intros Hmsg.
  - rewrite bool_decide_eq_true_2 by assumption. reflexivity.
  - rewrite bool_decide_eq_false_2 by assumption. reflexivity.
Qed.

Lemma throw_registered_defined {A : Type} (name : string) st :
  is_Some (errors st !! name) -> @throw_registered A name st <> Undefined.
Proof. intros [e He]. unfold throw_registered. rewrite He. discriminate. Qed.

Lemma set_invariants (d : ErrorStringData) st :
  consistent st -> in_int (nextErrorId st) -> INT_MIN < nextErrorId st ->
  self_registered st ->
  consistent (snd (set d st)) /\
  extends st (snd (set d st)) /\
  self_registered (snd (set d st)) /\
  fst (set d st) <> Undefined /\
  nextErrorId st - 1 <= nextErrorId (snd (set d st)) <= nextErrorId st.
Proof.
  intros Hc Hn Hroom Hself.
  destruct (errors st !! fst d) as [old |] eqn:Hk.
  - rewrite (set_existing_eq d st old Hk Hn). simpl.
    split; [exact Hc |]. split; [intros k e H; exact H |]. split; [exact Hself |].
    split; [| lia].
    destruct (bool_decide (err_message old = snd d)); [discriminate |].
    apply throw_registered_defined, Hself.
  - rewrite (set_fresh_eq d st Hk). simpl.
    rewrite wrap_int_small by (unfold in_int, INT_MIN, INT_MAX in *; lia).
    assert (Hext : forall k e, errors st !! k = Some e ->
              <[fst d := {| err_id := nextErrorId st; err_name := fst d;
                            err_message := snd d |}]> (errors st) !! k = Some e).
    { intros k e H. rewrite lookup_insert_ne; [exact H |]. intros <-. congruence. }
    split; [apply consistent_insert; assumption |].
    split; [exact Hext |].
    split; [| split; [discriminate | lia]].
    destruct Hself as ([e1 H1] & [e2 H2] & [e3 H3]).
    repeat split; eexists; apply Hext; eassumption.
Qed.

(** X14: [set] keeps the registry sound.  Whatever is registered, every
    element already there stays under its name with its id and message, ids
    stay unique, the three errors of the manager stay registered, so that
    [set] returns or throws but never reads past the end of the map. *)
Theorem set_keeps (d : ErrorStringData) st :
  consistent st -> in_int (nextErrorId st) -> INT_MIN < nextErrorId st ->
  self_registered st ->
  consistent (snd (set d st)) /\
  extends st (snd (set d st)) /\
  self_registered (snd (set d st)) /\
  fst (set d st) <> Undefined.
Proof.
  intros Hc Hn Hroom Hself.
  destruct (set_invariants d st Hc Hn Hroom Hself) as (H1 & H2 & H3 & H4 & _).
  auto.
Qed.

(** X15: registering the same data twice.  If [set] returned for some data,
    doing it again returns as well and changes nothing. *)
Theorem set_idempotent (d : ErrorStringData) st :
  in_int (nextErrorId st) -> INT_MIN < nextErrorId st ->
  fst (set d st) = Ok tt ->
  set d (snd (set d st)) = (Ok tt, snd (set d st)).
Proof.
  intros Hn Hroom Hok.
  destruct (errors st !! fst d) as [old |] eqn:Hk.
  - rewrite (set_existing_eq d st old Hk Hn) in *. simpl in *.
    rewrite (set_existing_eq d st old Hk Hn).
    destruct (bool_decide (err_message old = snd d)) eqn:E; [reflexivity |].
    unfold throw_registered in Hok.
    destruct (errors st !! "ErrorManagerCreateNameError"); discriminate.
  - rewrite (set_fresh_eq d st Hk). simpl.
    rewrite (set_existing_eq d _
               {| err_id := nextErrorId st; err_name := fst d;
                  err_message := snd d |}).
    + simpl. rewrite bool_decide_eq_true_2 by reflexivity. reflexivity.
    + simpl. apply lookup_insert_eq.
    + simpl. rewrite wrap_int_small; unfold in_int, INT_MIN, INT_MAX in *; lia.
Qed.

(** ** [registerPacletErrors] *)

(** X16: [registerPacletErrors] keeps the registry sound.  Whether the loop
    runs to its end or stops at a [set] that throws, the elements registered
    before are unchanged, ids are unique, at most one id per entry has been
    taken, and the call returns or throws a registered error. *)
Theorem registerPacletErrors_keeps (errs : list ErrorStringData) st :
  consistent st -> in_int (nextErrorId st) ->
  INT_MIN <= nextErrorId st - Z.of_nat (length errs) ->
  self_registered st ->
  consistent (snd (registerPacletErrors errs st)) /\
  extends st (snd (registerPacletErrors errs st)) /\
  self_registered (snd (registerPacletErrors errs st)) /\
  fst (registerPacletErrors errs st) <> Undefined /\
  nextErrorId st - Z.of_nat (length errs)
    <= nextErrorId (snd (registerPacletErrors errs st)) <= nextErrorId st.
Proof.
  revert st. induction errs as [| d errs IH]; intros st Hc Hn Hroom Hself.
  - simpl. split; [exact Hc |]. split; [intros k e H; exact H |].
    split; [exact Hself |]. split; [discriminate | lia].
  - simpl length in Hroom. simpl registerPacletErrors.
    assert (Hroom1 : INT_MIN < nextErrorId st) by lia.
    destruct (set_invariants d st Hc Hn Hroom1 Hself)
      as (Hc1 & Hext1 & Hself1 & Hdef1 & Hlo1 & Hhi1).
    destruct (set d st) as [r st1] eqn:Hset. simpl in *.
    destruct r as [[] | e |].
    + assert (Hn1 : in_int (nextErrorId st1))
        by (unfold in_int, INT_MIN, INT_MAX in *; lia).
      assert (Hroom2 : INT_MIN <= nextErrorId st1 - Z.of_nat (length errs)) by lia.
      destruct (IH st1 Hc1 Hn1 Hroom2 Hself1) as (Hc2 & Hext2 & Hself2 & Hdef2 & Hlo2 & Hhi2).
      split; [exact Hc2 |].
      split; [intros k e H; apply Hext2, Hext1, H |].
      split; [exact Hself2 |]. split; [exact Hdef2 | lia].
    + simpl. split; [exact Hc1 |]. split; [exact Hext1 |].
      split; [exact Hself1 |]. split; [discriminate | lia].
    + contradiction.
Qed.

(** ** [findError] *)

Lemma find_id_In st (i : Z) (err : string * LibraryLinkError) :
  find (fun err => err_id (snd err) =? i) (map_to_list (errors st)) = Some err ->
  errors st !! fst err = Some (snd err) /\ err_id (snd err) = i.
Proof.
  intros H. apply find_some in H as [Hin Hid].
  apply Z.eqb_eq in Hid. split; [| exact Hid].
  apply list_elem_of_In in Hin. destruct err as [k e].
  apply elem_of_map_to_list in Hin. exact Hin.
Qed.

(** X17: the two lookups agree.  In a sound registry an element is found
    under its name and under its id, and both lookups return that element,
    whatever order the loop of [findError(int)] visits the map in. *)
Theorem findError_roundtrip st k e :
  consistent st ->
  errors st !! k = Some e ->
  findError_name k st = Ok e /\
  findError_id (err_id e) st = Ok e /\
  findError_name (err_name e) st = Ok e.
Proof.
  intros [Hname Huniq] Hk.
  assert (Hbyname : findError_name k st = Ok e).
  { unfold findError_name. rewrite Hk. reflexivity. }
  split; [exact Hbyname |]. split.
  - unfold findError_id.
    destruct (find (fun err => err_id (snd err) =? err_id e)
                (map_to_list (errors st))) as [[k' e'] |] eqn:Hfind.
    + apply find_id_In in Hfind as [Hk' Hid]. simpl in *.
      assert (k' = k) as -> by exact (Huniq _ _ _ _ Hk' Hk Hid).
      congruence.
    + exfalso.
      assert (Hin : In (k, e) (map_to_list (errors st))).
      { apply list_elem_of_In, elem_of_map_to_list. exact Hk. }
      pose proof (find_none _ _ Hfind _ Hin) as Hno. simpl in Hno.
      rewrite Z.eqb_refl in Hno. discriminate.
  - destruct (Hname _ _ Hk) as [-> _]. exact Hbyname.
Qed.

(** X18: what is not registered is reported.  A name outside the map makes
    [findError] throw the registered ErrorManagerThrowNameError; an id that
    has not been handed out yet (at or below the counter) makes it throw the
    registered ErrorManagerThrowIdError. *)
Theorem findError_unknown st k (i : Z) (eName eId : LibraryLinkError) :
  consistent st ->
  errors st !! "ErrorManagerThrowNameError" = Some eName ->
  errors st !! "ErrorManagerThrowIdError" = Some eId ->
  (errors st !! k = None -> findError_name k st = Raise eName) /\
  (i <= nextErrorId st -> findError_id i st = Raise eId).
Proof.
  intros [Hname _] HeName HeId. split.
  - intros Hk. unfold findError_name, throw_registered. rewrite Hk, HeName. reflexivity.
  - intros Hi. unfold findError_id, throw_registered.
    destruct (find (fun err => err_id (snd err) =? i)
                (map_to_list (errors st))) as [[k' e'] |] eqn:Hfind.
    + apply find_id_In in Hfind as [Hk' Hid]. simpl in *.
      destruct (Hname _ _ Hk'). lia.
    + rewrite HeId. reflexivity.
Qed.

End ErrorManagerFacts.

(** * Further properties of [setMintAndCheck] *)

Module MArgumentManagerMore.
Import MArgumentManager.

Lemma as_operand_uint64 :
  as_operand uint64_t MINT_MAX = MINT_MAX /\ as_operand uint64_t MINT_MIN = 2 ^ 63.
Proof. split; reflexivity. Qed.

(** X19: what the flag of [setMintAndCheck] guarantees, for every integral
    type.  The slot always receives a [mint]; the flag is [true] exactly when
    that [mint] is one of the two bounds; and a [false] flag means the slot
    holds the argument itself. *)
Theorem setMintAndCheck_flag (T : IntegralT) (v : Z) :
  in_range T v ->
  exists m,
    fst (setMintAndCheck T v) = MArg_Integer m /\
    MINT_MIN <= m <= MINT_MAX /\
    (snd (setMintAndCheck T v) = true <-> m = MINT_MAX \/ m = MINT_MIN) /\
    (snd (setMintAndCheck T v) = false -> m = v).
Proof.
  intros Hv. unfold setMintAndCheck, setInteger.
  destruct (as_operand T MINT_MAX <=? v) eqn:Hmax.
  - exists MINT_MAX. simpl. split; [reflexivity |].
    split; [unfold MINT_MIN, MINT_MAX; lia |]. split; [tauto | discriminate].
  - destruct (v <=? as_operand T MINT_MIN) eqn:Hmin.
    + exists MINT_MIN. simpl. split; [reflexivity |].
      split; [unfold MINT_MIN, MINT_MAX; lia |]. split; [tauto | discriminate].
    + assert (Hstrict : MINT_MIN < v < MINT_MAX).
      { apply Z.leb_gt in Hmax, Hmin. unfold as_operand in *.
        destruct (compares_unsigned T) eqn:HT.
        - assert (T = uint64_t) as ->
            by (destruct T; try reflexivity; vm_compute in HT; discriminate).
          change (MINT_MIN mod 2 ^ 64) with (2 ^ 63) in Hmin.
          change (MINT_MAX mod 2 ^ 64) with MINT_MAX in Hmax.
          unfold MINT_MAX in *. lia.
        - lia. }
      exists v. simpl. rewrite (to_mint_small v) by lia.
      split; [reflexivity |]. split; [lia |].
      split; [| reflexivity].
      split; [discriminate | intros [-> | ->]; lia].
Qed.

(** X20: [setMintAndCheck] for a signed type or an unsigned type narrower
    than [mint].  A value at or above [MINT_MAX] stores [MINT_MAX], a value
    at or below [MINT_MIN] stores [MINT_MIN], both with flag [true]; any
    other value is stored unchanged with flag [false]. *)
Theorem setMintAndCheck_narrow (T : IntegralT) (v : Z) :
  T <> uint64_t ->
  in_range T v ->
  (MINT_MAX <= v -> setMintAndCheck T v = (MArg_Integer MINT_MAX, true)) /\
  (v <= MINT_MIN -> setMintAndCheck T v = (MArg_Integer MINT_MIN, true)) /\
  (MINT_MIN < v < MINT_MAX -> setMintAndCheck T v = (MArg_Integer v, false)).
Proof.
  intros HT Hv.
  assert (Hop : forall m, as_operand T m = m).
  { intros m. unfold as_operand. destruct T; try reflexivity. congruence. }
  unfold setMintAndCheck, setInteger. rewrite !Hop.
  split; [| split].
  - intros H. rewrite (proj2 (Z.leb_le _ _) H). reflexivity.
  - intros H.
    replace (MINT_MAX <=? v) with false
      by (symmetry; apply Z.leb_gt; unfold MINT_MIN, MINT_MAX in *; lia).
    rewrite (proj2 (Z.leb_le _ _) H). reflexivity.
  - intros [Hlo Hhi].
    replace (MINT_MAX <=? v) with false by (symmetry; apply Z.leb_gt; lia).
    replace (v <=? MINT_MIN) with false by (symmetry; apply Z.leb_gt; lia).
    rewrite to_mint_small by lia. reflexivity.
Qed.

Lemma setMintAndCheck_flag_witness :
  in_range uint64_t 5 /\
  exists m,
    fst (setMintAndCheck uint64_t 5) = MArg_Integer m /\
    MINT_MIN <= m <= MINT_MAX /\
    (snd (setMintAndCheck uint64_t 5) = true <-> m = MINT_MAX \/ m = MINT_MIN) /\
    (snd (setMintAndCheck uint64_t 5) = false -> m = 5).
Proof.
  assert (H : in_range uint64_t 5) by (unfold in_range, T_min, T_max; cbn; lia).
  split; [exact H |]. exact (setMintAndCheck_flag uint64_t 5 H).
Defined.

Lemma setMintAndCheck_narrow_witness :
  int32_t <> uint64_t /\
  in_range int32_t (-7) /\
  MINT_MIN < -7 < MINT_MAX /\
  setMintAndCheck int32_t (-7) = (MArg_Integer (-7), false).
Proof.
  assert (H1 : int32_t <> uint64_t) by discriminate.
  assert (H2 : in_range int32_t (-7)) by (unfold in_range, T_min, T_max; cbn; lia).
  assert (H3 : MINT_MIN < -7 < MINT_MAX) by (unfold MINT_MIN, MINT_MAX; lia).
  repeat (split; [assumption |]).
  exact (proj2 (proj2 (setMintAndCheck_narrow int32_t (-7) H1 H2)) H3).
Defined.

End MArgumentManagerMore.

(** * Further scenarios *)

Lemma filled_run_eq :
  Tensor_fill MType_Integer 7 [2; 3] Sample.world_on
    = (Return SampleMore.filled_tensor, snd SampleMore.filled_run).
Proof. vm_compute. reflexivity. Qed.

Lemma Tensor_fill_exception_safe_witness :
  Tensor_fill MType_Integer 7 [3; 0; 2] Sample.world_on
    = (Throw DimensionsError, Sample.world_on) /\
  Sample.world_on = Sample.world_on /\
  ((installed Sample.world_on = false /\ DimensionsError = FunctionError) \/
   (installed Sample.world_on = true /\ DimensionsError = DimensionsError) \/
   (installed Sample.world_on = true /\ new_status (host Sample.world_on) <> 0 /\
    DimensionsError = TensorNewError)).
Proof.
  assert (H : Tensor_fill MType_Integer 7 [3; 0; 2] Sample.world_on
              = (Throw DimensionsError, Sample.world_on)) by reflexivity.
  split; [exact H |].
  exact (Tensor_fill_exception_safe MType_Integer 7 [3; 0; 2] Sample.world_on
           DimensionsError Sample.world_on H).
Defined.

Lemma Tensor_range_throw_cases_witness :
  Tensor_range MType_Integer [1; 2; 3] [2; 2] Sample.world_on
    = (Throw TensorNewError, snd Sample.mismatch_run) /\
  ((snd Sample.mismatch_run = Sample.world_on /\
    ((installed Sample.world_on = false /\ TensorNewError = FunctionError) \/
     (installed Sample.world_on = true /\ TensorNewError = DimensionsError) \/
     (installed Sample.world_on = true /\ new_status (host Sample.world_on) <> 0 /\
      TensorNewError = TensorNewError))) \/
   (TensorNewError = TensorNewError /\
    new_status (host Sample.world_on) = 0 /\
    Z.of_nat (length [1; 2; 3]) <> totalLengthFromDims [2; 2] /\
    snd Sample.mismatch_run <> Sample.world_on /\
    live (Npos (new_address Sample.world_on)) (snd Sample.mismatch_run) /\
    freed (host (snd Sample.mismatch_run)) = freed (host Sample.world_on))).
Proof.
  assert (H : Tensor_range MType_Integer [1; 2; 3] [2; 2] Sample.world_on
              = (Throw TensorNewError, snd Sample.mismatch_run))
    by (vm_compute; reflexivity).
  split; [exact H |].
  exact (Tensor_range_throw_cases MType_Integer [1; 2; 3] [2; 2] Sample.world_on
           TensorNewError (snd Sample.mismatch_run) H).
Defined.

Lemma construct_destroy_witness :
  (Tensor_fill MType_Integer 7 [2; 3] Sample.world_on
     = (Return SampleMore.filled_tensor, snd SampleMore.filled_run) \/
   Tensor_range MType_Integer [] [2; 3] Sample.world_on
     = (Return SampleMore.filled_tensor, snd SampleMore.filled_run)) /\
  heap (host (Tensor_dtor SampleMore.filled_tensor (snd SampleMore.filled_run)))
    = heap (host Sample.world_on) /\
  freed (host (Tensor_dtor SampleMore.filled_tensor (snd SampleMore.filled_run)))
    = internalMT SampleMore.filled_tensor :: freed (host Sample.world_on) /\
  ~ live (internalMT SampleMore.filled_tensor)
      (Tensor_dtor SampleMore.filled_tensor (snd SampleMore.filled_run)).
Proof.
  pose proof filled_run_eq as H.
  split; [left; exact H |].
  exact (construct_destroy MType_Integer 7 [] [2; 3] Sample.world_on
           SampleMore.filled_tensor (snd SampleMore.filled_run) (or_introl H)).
Defined.

Lemma move_destroy_once_witness :
  Tensor_fill MType_Integer 7 [2; 3] Sample.world_on
    = (Return SampleMore.filled_tensor, snd SampleMore.filled_run) /\
  Tensor_dtor (fst (Tensor_move SampleMore.filled_tensor))
    (Tensor_dtor (snd (Tensor_move SampleMore.filled_tensor)) (snd SampleMore.filled_run))
  = Tensor_dtor (snd (Tensor_move SampleMore.filled_tensor))
      (Tensor_dtor (fst (Tensor_move SampleMore.filled_tensor)) (snd SampleMore.filled_run)) /\
  heap (host (Tensor_dtor (fst (Tensor_move SampleMore.filled_tensor))
                (Tensor_dtor (snd (Tensor_move SampleMore.filled_tensor))
                   (snd SampleMore.filled_run))))
    = heap (host Sample.world_on) /\
  freed (host (Tensor_dtor (fst (Tensor_move SampleMore.filled_tensor))
                 (Tensor_dtor (snd (Tensor_move SampleMore.filled_tensor))
                    (snd SampleMore.filled_run))))
    = internalMT SampleMore.filled_tensor :: freed (host Sample.world_on).
Proof.
  pose proof filled_run_eq as H.
  split; [exact H |].
  exact (move_destroy_once MType_Integer 7 [2; 3] Sample.world_on
           SampleMore.filled_tensor (snd SampleMore.filled_run) H).
Defined.

Lemma construct_wrap_flat_witness :
  Tensor_fill MType_Integer 7 [2; 3] Sample.world_on
    = (Return SampleMore.filled_tensor, snd SampleMore.filled_run) /\
  length [2; 3] <> 1%nat /\
  exists b,
    Tensor_wrap MType_Integer (internalMT SampleMore.filled_tensor)
      (snd SampleMore.filled_run) = (Return b, snd SampleMore.filled_run) /\
    rank b = 1 /\
    dims (base b) = [size SampleMore.filled_tensor] /\
    size b = size SampleMore.filled_tensor /\
    owner b = false /\
    dims (base b) <> dims (base SampleMore.filled_tensor).
Proof.
  pose proof filled_run_eq as H.
  assert (Hlen : length [2; 3] <> 1%nat) by discriminate.
  split; [exact H |]. split; [exact Hlen |].
  destruct (construct_wrap_flat MType_Integer 7 [2; 3] Sample.world_on
              SampleMore.filled_tensor (snd SampleMore.filled_run) H)
    as (b & Hw & Hr & Hd & Hs & Ho & Hne).
  exists b. repeat (split; [assumption |]). exact (Hne Hlen).
Defined.

Lemma shape_ok_kept_witness :
  Tensor_fill MType_Integer 7 [2; 3] Sample.world_on
    = (Return SampleMore.filled_tensor, snd SampleMore.filled_run) /\
  shape_ok SampleMore.filled_tensor /\
  shape_ok (fst (Tensor_move SampleMore.filled_tensor)) /\
  shape_ok (snd (Tensor_move SampleMore.filled_tensor)).
Proof.
  pose proof filled_run_eq as H.
  pose proof (@shape_ok_kept Z MType_Integer) as (Hfill & _ & _ & Hmove).
  pose proof (Hfill 7 [2; 3] Sample.world_on _ _ H) as Hok.
  split; [exact H |]. split; [exact Hok |].
  split; [exact (proj1 (Hmove _ Hok)) | exact (proj2 (Hmove _ Hok))].
Defined.

Lemma dimension_spec_witness :
  shape_ok SampleMore.filled_tensor /\
  0 <= 1 < rank SampleMore.filled_tensor /\
  (2 < 0 \/ rank SampleMore.filled_tensor <= 2) /\
  (exists d, dims (base SampleMore.filled_tensor) !! Z.to_nat 1 = Some d /\
             dimension SampleMore.filled_tensor 1 = Return d) /\
  dimension SampleMore.filled_tensor 2 = Throw TensorIndexError.
Proof.
  assert (H1 : shape_ok SampleMore.filled_tensor) by reflexivity.
  assert (H2 : 0 <= 1 < rank SampleMore.filled_tensor) by (cbn; lia).
  assert (H3 : 2 < 0 \/ rank SampleMore.filled_tensor <= 2) by (right; cbn; lia).
  repeat (split; [assumption |]).
  split.
  - exact (proj1 (dimension_spec SampleMore.filled_tensor 1 H1) H2).
  - exact (proj2 (dimension_spec SampleMore.filled_tensor 2 H1) H3).
Defined.

Lemma MArrayBase_ctor_returns_iff_witness :
  installed Sample.world_on = true /\
  Z.of_nat (length [2; 3]) <= MINT_MAX /\
  Forall (fun d => 0 < d <= MINT_MAX) [2; 3] /\
  MArrayBase_ctor [2; 3] Sample.world_on = Return (base_of_shape [2; 3]).
Proof.
  assert (H1 : installed Sample.world_on = true) by reflexivity.
  assert (H2 : Z.of_nat (length [2; 3]) <= MINT_MAX) by (unfold MINT_MAX; simpl; lia).
  assert (H3 : Forall (fun d => 0 < d <= MINT_MAX) [2; 3])
    by (repeat constructor; unfold MINT_MAX; lia).
  split; [exact H1 |]. split; [exact H2 |]. split; [exact H3 |].
  exact (proj2 (MArrayBase_ctor_returns_iff [2; 3] Sample.world_on
                  (base_of_shape [2; 3]))
           (conj H1 (conj H2 (conj H3 eq_refl)))).
Defined.

Module ErrorManagerScenarios.
Import ErrorManager ErrorManagerFacts.

Lemma registry_room :
  in_int 7 /\ INT_MIN <= 7 - Z.of_nat (length LLUErrors).
Proof. split; [split |]; vm_compute; discriminate. Qed.

Lemma registry_consistent : consistent SampleMore.registry.
Proof.
  destruct registry_room as [H1 H2].
  unfold SampleMore.registry, initial, registerLLUErrors.
  apply fold_register_consistent; try assumption.
  split; simpl; intros *; rewrite lookup_empty; discriminate.
Qed.

Lemma registry_counter :
  in_int (nextErrorId SampleMore.registry) /\ INT_MIN < nextErrorId SampleMore.registry.
Proof. split; [split; vm_compute; discriminate | vm_compute; reflexivity]. Qed.

Lemma registry_self_registered : self_registered SampleMore.registry.
Proof.
  split; [| split].
  - exists {| err_id := -8; err_name := "ErrorManagerCreateNameError";
              err_message :=
                "An exception was registered with a name that already exists." |}.
    vm_compute. reflexivity.
  - exists SampleMore.ThrowIdError_entry. vm_compute. reflexivity.
  - exists SampleMore.ThrowNameError_entry. vm_compute. reflexivity.
Qed.

Lemma registerLLUErrors_counter_witness :
  in_int 7 /\
  INT_MIN <= 7 - Z.of_nat (length LLUErrors) /\
  snd (registerLLUErrors LLUErrors 7) = 7 - Z.of_nat (length LLUErrors).
Proof.
  destruct registry_room as [H1 H2].
  split; [exact H1 |]. split; [exact H2 |].
  exact (registerLLUErrors_counter LLUErrors 7 H1 H2).
Defined.

Lemma registerLLUErrors_lookup_witness :
  in_int 7 /\
  INT_MIN <= 7 - Z.of_nat (length LLUErrors) /\
  LLUErrors = firstn 3 LLUErrors
                ++ ("NumericalError", "A numerical error was encountered.")
                   :: skipn 4 LLUErrors /\
  ~ In "NumericalError" (map fst (firstn 3 LLUErrors)) /\
  ~ In "NoSuchError" (map fst LLUErrors) /\
  fst (registerLLUErrors LLUErrors 7) !! "NumericalError" =
    Some {| err_id := 7 - Z.of_nat (length (firstn 3 LLUErrors));
            err_name := "NumericalError";
            err_message := "A numerical error was encountered." |} /\
  fst (registerLLUErrors LLUErrors 7) !! "NoSuchError" = None.
Proof.
  destruct registry_room as [H1 H2].
  assert (H3 : LLUErrors = firstn 3 LLUErrors
                 ++ ("NumericalError", "A numerical error was encountered.")
                    :: skipn 4 LLUErrors) by reflexivity.
  assert (H4 : ~ In "NumericalError" (map fst (firstn 3 LLUErrors))).
  { simpl. intros [H | [H | [H | []]]]; discriminate. }
  assert (H5 : ~ In "NoSuchError" (map fst LLUErrors)).
  { destruct (in_dec String.string_dec "NoSuchError" (map fst LLUErrors))
      as [Hin | Hnot] eqn:E; [vm_compute in E; discriminate | exact Hnot]. }
  split; [exact H1 |]. split; [exact H2 |]. split; [exact H3 |]. split; [exact H4 |]. split; [exact H5 |].
  split.
  - exact (proj1 (registerLLUErrors_lookup LLUErrors 7 H1 H2) _ _ _ _ H3 H4).
  - exact (proj2 (registerLLUErrors_lookup LLUErrors 7 H1 H2) _ H5).
Defined.

Lemma initial_consistent_witness :
  in_int 7 /\
  INT_MIN <= 7 - Z.of_nat (length LLUErrors) /\
  consistent (initial LLUErrors 7) /\
  nextErrorId (initial LLUErrors 7) = 7 - Z.of_nat (length LLUErrors) /\
  (forall k, In k (map fst LLUErrors) <-> is_Some (errors (initial LLUErrors 7) !! k)).
Proof.
  destruct registry_room as [H1 H2].
  split; [exact H1 |]. split; [exact H2 |].
  exact (initial_consistent LLUErrors 7 H1 H2).
Defined.

Lemma set_fresh_witness :
  errors SampleMore.registry !! "MyPacletError" = None /\
  in_int (nextErrorId SampleMore.registry) /\
  INT_MIN < nextErrorId SampleMore.registry /\
  fst (set ("MyPacletError", "Mine.") SampleMore.registry) = Ok tt /\
  errors (snd (set ("MyPacletError", "Mine.") SampleMore.registry)) =
    <["MyPacletError" := {| err_id := nextErrorId SampleMore.registry;
                            err_name := "MyPacletError";
                            err_message := "Mine." |}]> (errors SampleMore.registry) /\
  nextErrorId (snd (set ("MyPacletError", "Mine.") SampleMore.registry))
    = nextErrorId SampleMore.registry - 1 /\
  findError_name "MyPacletError" (snd (set ("MyPacletError", "Mine.") SampleMore.registry))
    = Ok {| err_id := nextErrorId SampleMore.registry;
            err_name := "MyPacletError"; err_message := "Mine." |}.
Proof.
  assert (H1 : errors SampleMore.registry !! "MyPacletError" = None)
    by (vm_compute; reflexivity).
  destruct registry_counter as [H2 H3].
  split; [exact H1 |]. split; [exact H2 |]. split; [exact H3 |].
  exact (set_fresh "MyPacletError" "Mine." SampleMore.registry H1 H2 H3).
Defined.

Lemma set_existing_witness :
  errors SampleMore.registry !! "FunctionError" = Some SampleMore.FunctionError_entry /\
  in_int (nextErrorId SampleMore.registry) /\
  err_message SampleMore.FunctionError_entry <> "Changed." /\
  snd (set ("FunctionError", "Changed.") SampleMore.registry) = SampleMore.registry /\
  fst (set ("FunctionError", "Changed.") SampleMore.registry)
    = throw_registered "ErrorManagerCreateNameError" SampleMore.registry.
Proof.
  assert (H1 : errors SampleMore.registry !! "FunctionError"
               = Some SampleMore.FunctionError_entry) by (vm_compute; reflexivity).
  destruct registry_counter as [H2 _].
  assert (H3 : err_message SampleMore.FunctionError_entry <> "Changed.") by discriminate.
  split; [exact H1 |]. split; [exact H2 |]. split; [exact H3 |].
  destruct (set_existing "FunctionError" "Changed." SampleMore.registry
              SampleMore.FunctionError_entry H1 H2) as (Hst & _ & Hthrow).
  split; [exact Hst | exact (Hthrow H3)].
Defined.

Lemma set_keeps_witness :
  consistent SampleMore.registry /\
  in_int (nextErrorId SampleMore.registry) /\
  INT_MIN < nextErrorId SampleMore.registry /\
  self_registered SampleMore.registry /\
  consistent (snd (set ("MyPacletError", "Mine.") SampleMore.registry)) /\
  extends SampleMore.registry (snd (set ("MyPacletError", "Mine.") SampleMore.registry)) /\
  self_registered (snd (set ("MyPacletError", "Mine.") SampleMore.registry)) /\
  fst (set ("MyPacletError", "Mine.") SampleMore.registry) <> Undefined.
Proof.
  pose proof registry_consistent as H1.
  destruct registry_counter as [H2 H3].
  pose proof registry_self_registered as H4.
  split; [exact H1 |]. split; [exact H2 |]. split; [exact H3 |]. split; [exact H4 |].
  exact (set_keeps ("MyPacletError", "Mine.") SampleMore.registry H1 H2 H3 H4).
Defined.

Lemma set_idempotent_witness :
  in_int (nextErrorId SampleMore.registry) /\
  INT_MIN < nextErrorId SampleMore.registry /\
  fst (set ("MyPacletError", "Mine.") SampleMore.registry) = Ok tt /\
  set ("MyPacletError", "Mine.") (snd (set ("MyPacletError", "Mine.") SampleMore.registry))
    = (Ok tt, snd (set ("MyPacletError", "Mine.") SampleMore.registry)).
Proof.
  destruct registry_counter as [H1 H2].
  assert (H3 : fst (set ("MyPacletError", "Mine.") SampleMore.registry) = Ok tt)
    by (vm_compute; reflexivity).
  split; [exact H1 |]. split; [exact H2 |]. split; [exact H3 |].
  exact (set_idempotent ("MyPacletError", "Mine.") SampleMore.registry H1 H2 H3).
Defined.

Lemma registerPacletErrors_keeps_witness :
  consistent SampleMore.registry /\
  in_int (nextErrorId SampleMore.registry) /\
  INT_MIN <= nextErrorId SampleMore.registry
             - Z.of_nat (length [("A", "x"); ("A", "y")]) /\
  self_registered SampleMore.registry /\
  consistent (snd (registerPacletErrors [("A", "x"); ("A", "y")] SampleMore.registry)) /\
  extends SampleMore.registry
    (snd (registerPacletErrors [("A", "x"); ("A", "y")] SampleMore.registry)) /\
  self_registered (snd (registerPacletErrors [("A", "x"); ("A", "y")] SampleMore.registry)) /\
  fst (registerPacletErrors [("A", "x"); ("A", "y")] SampleMore.registry) <> Undefined /\
  nextErrorId SampleMore.registry - Z.of_nat (length [("A", "x"); ("A", "y")])
    <= nextErrorId (snd (registerPacletErrors [("A", "x"); ("A", "y")] SampleMore.registry))
    <= nextErrorId SampleMore.registry.
Proof.
  pose proof registry_consistent as H1.
  destruct registry_counter as [H2 _].
  assert (H3 : INT_MIN <= nextErrorId SampleMore.registry
                          - Z.of_nat (length [("A", "x"); ("A", "y")]))
    by (vm_compute; discriminate).
  pose proof registry_self_registered as H4.
  split; [exact H1 |]. split; [exact H2 |]. split; [exact H3 |]. split; [exact H4 |].
  exact (registerPacletErrors_keeps [("A", "x"); ("A", "y")] SampleMore.registry
           H1 H2 H3 H4).
Defined.

Lemma findError_roundtrip_witness :
  consistent SampleMore.registry /\
  errors SampleMore.registry !! "FunctionError" = Some SampleMore.FunctionError_entry /\
  findError_name "FunctionError" SampleMore.registry = Ok SampleMore.FunctionError_entry /\
  findError_id (err_id SampleMore.FunctionError_entry) SampleMore.registry
    = Ok SampleMore.FunctionError_entry /\
  findError_name (err_name SampleMore.FunctionError_entry) SampleMore.registry
    = Ok SampleMore.FunctionError_entry.
Proof.
  pose proof registry_consistent as H1.
  assert (H2 : errors SampleMore.registry !! "FunctionError"
               = Some SampleMore.FunctionError_entry) by (vm_compute; reflexivity).
  split; [exact H1 |]. split; [exact H2 |].
  exact (findError_roundtrip SampleMore.registry "FunctionError"
           SampleMore.FunctionError_entry H1 H2).
Defined.

Lemma findError_unknown_witness :
  consistent SampleMore.registry /\
  errors SampleMore.registry !! "ErrorManagerThrowNameError"
    = Some SampleMore.ThrowNameError_entry /\
  errors SampleMore.registry !! "ErrorManagerThrowIdError"
    = Some SampleMore.ThrowIdError_entry /\
  errors SampleMore.registry !! "NoSuchError" = None /\
  -100 <= nextErrorId SampleMore.registry /\
  findError_name "NoSuchError" SampleMore.registry = Raise SampleMore.ThrowNameError_entry /\
  findError_id (-100) SampleMore.registry = Raise SampleMore.ThrowIdError_entry.
Proof.
  pose proof registry_consistent as H1.
  assert (H2 : errors SampleMore.registry !! "ErrorManagerThrowNameError"
               = Some SampleMore.ThrowNameError_entry) by (vm_compute; reflexivity).
  assert (H3 : errors SampleMore.registry !! "ErrorManagerThrowIdError"
               = Some SampleMore.ThrowIdError_entry) by (vm_compute; reflexivity).
  assert (H4 : errors SampleMore.registry !! "NoSuchError" = None)
    by (vm_compute; reflexivity).
  assert (H5 : -100 <= nextErrorId SampleMore.registry) by (vm_compute; discriminate).
  split; [exact H1 |]. split; [exact H2 |]. split; [exact H3 |]. split; [exact H4 |]. split; [exact H5 |].
  destruct (findError_unknown SampleMore.registry "NoSuchError" (-100)
              SampleMore.ThrowNameError_entry SampleMore.ThrowIdError_entry H1 H2 H3)
    as [Hn Hi].
  split; [exact (Hn H4) | exact (Hi H5)].
Defined.

End ErrorManagerScenarios.
